(** * Synthetic pair + motion-vector supervision pipeline

    A shallow embedding of [data/synth_dataset_me.py]: [Warper],
    [MEHandler], [pickle_ME] and the manifest handling of
    [SynthDatasetME], with the dispatch on the model tag of [train.py],
    followed by the properties of the specification that concern them.

    Conventions.
    - Python [int] is [Z]; [//] on ints is [Z.div] (both floor).
    - Python [float] / numpy [float64] is the instance [binary64] of the
      interface [PyFloat]: IEEE 754 double precision, from the standard
      library's [SpecFloat].  Properties that do not depend on the
      arithmetic are stated for every instance of the interface.
    - A raised exception is a value [Raise e] of the result type [Exc].
    - The global random generator is replaced by the values it hands out
      ([Draws]); the external estimator [pythonME.me.ME] and the OpenCV
      primitives are section variables. *)

From Stdlib Require Import String ZArith QArith Lia Bool List.
From Stdlib Require Import Floats.SpecFloat.
Import ListNotations.

Local Open Scope Z_scope.

(** ** Exceptions and results *)

Inductive PyError : Type :=
| NotImplementedError (msg : string)
| AttributeError (attr : string)
| ValueError
| OverflowError
| ZeroDivisionError
| KeyError (label : Z)
| OSError (path : string).

Inductive Exc (A : Type) : Type :=
| Ok (a : A)
| Raise (e : PyError).
Arguments Ok {A} a.
Arguments Raise {A} e.

Definition bind {A B : Type} (m : Exc A) (k : A -> Exc B) : Exc B :=
  match m with
  | Ok a => k a
  | Raise e => Raise e
  end.

Notation "x <- m ;; k" := (bind m (fun x => k))
  (at level 61, m at next level, right associativity).

Definition succeeds {A : Type} (m : Exc A) : Prop := exists a, m = Ok a.

(** ** Python sequences: slices with start/stop, and strided slices *)

Section Slices.
Context {A : Type}.

(** Index normalisation of [seq[start:stop]]: a negative bound counts
    from the end, and both bounds are clamped to [0, len]. *)
Definition clamp_index (len i : Z) : Z :=
  if i <? 0 then Z.max (i + len) 0 else Z.min i len.

Definition py_slice (start stop : Z) (l : list A) : list A :=
  let len := Z.of_nat (length l) in
  let lo := clamp_index len start in
  let hi := clamp_index len stop in
  firstn (Z.to_nat (hi - lo)) (skipn (Z.to_nat lo) l).

(** [seq[::step]] for a positive step: the elements at 0, step, 2*step, ... *)
Fixpoint py_stride_from (fuel : nat) (step : nat) (l : list A) : list A :=
  match fuel with
  | O => []
  | S fuel' =>
      match l with
      | [] => []
      | x :: _ => x :: py_stride_from fuel' step (skipn step l)
      end
  end.

Definition py_stride (step : nat) (l : list A) : list A :=
  py_stride_from (length l) step l.
End Slices.

(** ** Floating point *)

Class PyFloat (F : Type) : Type := {
  (** conversion of an [int] operand; fails when the int is out of range *)
  f_of_int : Z -> Exc F;
  (** the decimal literal [num/den] *)
  f_lit : Z -> positive -> F;
  f_add : F -> F -> F;
  f_sub : F -> F -> F;
  f_mul : F -> F -> F;
  (** numpy division: total (a zero divisor gives inf or nan in IEEE) *)
  f_div : F -> F -> F;
  f_is_zero : F -> bool;
  (** [int(x)]: truncation toward zero *)
  f_int : F -> Exc Z;
  (** rounding to [numpy.float32] *)
  f_to_f32 : F -> F
}.

(** Python's [float / float]: a zero divisor raises. *)
Definition py_truediv {F} `{PyFloat F} (x y : F) : Exc F :=
  if f_is_zero y then Raise ZeroDivisionError else Ok (f_div x y).

Module B64.
Definition prec : Z := 53.
Definition emax : Z := 1024.
Definition t : Type := spec_float.

Definition of_Z (n : Z) : t := binary_normalize prec emax n 0 false.

Definition of_int (n : Z) : Exc t :=
  match of_Z n with
  | S754_infinity _ => Raise OverflowError
  | x => Ok x
  end.

Definition add : t -> t -> t := SFadd prec emax.
Definition sub : t -> t -> t := SFsub prec emax.
Definition mul : t -> t -> t := SFmul prec emax.
Definition div : t -> t -> t := SFdiv prec emax.

(** A decimal literal is the double nearest to the quotient. *)
Definition lit (num : Z) (den : positive) : t := div (of_Z num) (of_Z (Zpos den)).

Definition is_zero (x : t) : bool :=
  match x with S754_zero _ => true | _ => false end.

Definition to_int (x : t) : Exc Z :=
  match x with
  | S754_nan => Raise ValueError
  | S754_infinity _ => Raise OverflowError
  | S754_zero _ => Ok 0
  | S754_finite s m e => Ok (cond_Zopp s (Z.shiftl (Zpos m) e))
  end.

Definition to_f32 (x : t) : t :=
  match x with
  | S754_finite s m e => binary_round 24 128 s m e
  | _ => x
  end.
End B64.

#[export] Instance binary64 : PyFloat B64.t := {
  f_of_int := B64.of_int;
  f_lit := B64.lit;
  f_add := B64.add;
  f_sub := B64.sub;
  f_mul := B64.mul;
  f_div := B64.div;
  f_is_zero := B64.is_zero;
  f_int := B64.to_int;
  f_to_f32 := B64.to_f32
}.


(** ** Warper *)

(** The values handed out by the global generator during one
    [Warper.__init__], in call order: [np.random.rand(1)],
    [np.random.randint(0, 5)], and the three [np.random.rand()] of the
    general branch. *)
Record Draws (F : Type) : Type := {
  rand_tx : F;
  randint_sel : Z;
  rand_rotate : F;
  rand_scale : F;
  rand_shift : F
}.
Arguments rand_tx {F} d.
Arguments randint_sel {F} d.
Arguments rand_rotate {F} d.
Arguments rand_scale {F} d.
Arguments rand_shift {F} d.


(** A 2x3 affine matrix, [mIJ] being [mat[I, J]]. *)
Record mat23 (F : Type) : Type := {
  m00 : F; m01 : F; m02 : F;
  m10 : F; m11 : F; m12 : F
}.
Arguments Build_mat23 {F}.
Arguments m00 {F} m.
Arguments m01 {F} m.
Arguments m02 {F} m.
Arguments m10 {F} m.
Arguments m11 {F} m.
Arguments m12 {F} m.

Definition set_m02 {F} (m : mat23 F) (v : F) : mat23 F :=
  Build_mat23 (m00 m) (m01 m) v (m10 m) (m11 m) (m12 m).
Definition set_m12 {F} (m : mat23 F) (v : F) : mat23 F :=
  Build_mat23 (m00 m) (m01 m) (m02 m) (m10 m) (m11 m) v.

(** Instance attributes.  [add_tx] and [add_ty] are [None] while the
    attribute has not been assigned. *)
Record Warper (F : Type) : Type := {
  add_tx : option bool;
  add_ty : option bool;
  H : Z;
  W : Z;
  H_off : Z;
  W_off : Z;
  mat : mat23 F;
  theta : list F
}.
Arguments Build_Warper {F}.
Arguments add_tx {F} w.
Arguments add_ty {F} w.
Arguments H {F} w.
Arguments W {F} w.
Arguments H_off {F} w.
Arguments W_off {F} w.
Arguments mat {F} w.
Arguments theta {F} w.

Definition getattr_bool (name : string) (v : option bool) : Exc bool :=
  match v with
  | Some b => Ok b
  | None => Raise (AttributeError name)
  end.

Section WarperDef.
Context {F : Type} `{PyFloat F}.
Context {pixel : Type}.

(** [cv2.getRotationMatrix2D(center, angle, scale)] and
    [cv2.warpAffine(src, M, dsize)]. *)
Variable getRotationMatrix2D : Z * Z -> F -> F -> mat23 F.
Variable warpAffine : list (list pixel) -> mat23 F -> Z * Z -> list (list pixel).

(** [int(n * crop) // 2] *)
Definition crop_offset (n : Z) (crop : F) : Exc Z :=
  fn <- f_of_int n ;;
  k <- f_int (f_mul fn crop) ;;
  Ok (k / 2).

(** [(2 * np.random.rand(1) - 1) * 0.1 * self.W] *)
Definition draw_tx (u : F) (fW : F) : F :=
  f_mul (f_mul (f_sub (f_mul (f_lit 2 1) u) (f_lit 1 1)) (f_lit 1 10)) fW.

(** [(np.random.rand() - 0.5) * 2 * k] *)
Definition centred (u : F) (k : F) : F :=
  f_mul (f_mul (f_sub u (f_lit 1 2)) (f_lit 2 1)) k.

(** Lines 29-41 of [__init__]: the draw of [tx], the choice of the
    branch, and the values assigned to [self.mat] and [self.theta];
    [fW] is [self.W] as a float. *)
Definition sample_transform (H W : Z) (fW : F) (d : Draws F)
    : Exc (mat23 F * list F) :=
  let tx := draw_tx (rand_tx d) fW in
  if randint_sel d =? 4 then
    Ok (Build_mat23 (f_lit 1 1) (f_lit 0 1) (f_to_f32 tx)
                    (f_lit 0 1) (f_lit 1 1) (f_lit 0 1),
        [f_lit 0 1; f_lit 1 1; f_lit 0 1; f_div tx fW])
  else
    let rotate_value := centred (rand_rotate d) (f_lit 75 100) in
    let scale_value := f_add (f_lit 1 1) (centred (rand_scale d) (f_lit 15 1000)) in
    let shift_value := centred (rand_shift d) (f_lit 10 1) in
    let m := getRotationMatrix2D (W / 2, H / 2) rotate_value scale_value in
    let m := set_m12 m (f_add (m12 m) shift_value) in
    let m := set_m02 m (f_add (m02 m) tx) in
    fH <- f_of_int H ;;
    ty <- py_truediv shift_value fH ;;
    Ok (m, [rotate_value; scale_value; ty; f_div tx fW]).


Definition Warper_init (H W : Z) (geometric_model : string) (crop : F)
    (d : Draws F) : Exc (Warper F) :=
  flags <-
    (if String.eqb geometric_model "affine_simple_4" then Ok (Some true, None)
     else if String.eqb geometric_model "affine_simple" then Ok (None, Some false)
     else Raise (NotImplementedError "Specified geometric model is unsupported")) ;;
  H_off <- crop_offset H crop ;;
  W_off <- crop_offset W crop ;;
  fW <- f_of_int W ;;
  mt <- sample_transform H W fW d ;;
  b <- getattr_bool "add_tx" (fst flags) ;;
  if negb b then
    Ok (Build_Warper (fst flags) (snd flags) H W H_off W_off
          (set_m02 (fst mt) (f_lit 0 1)) (py_slice 0 3 (snd mt)))
  else
    Ok (Build_Warper (fst flags) (snd flags) H W H_off W_off (fst mt) (snd mt)).

(** [img[self.H_off:-self.H_off, self.W_off:-self.W_off]] *)
Definition crop (w : Warper F) (img : list (list pixel)) : list (list pixel) :=
  map (py_slice (W_off w) (- W_off w)) (py_slice (H_off w) (- H_off w) img).

Definition warp (w : Warper F) (img_L img_R : list (list pixel))
    : list (list pixel) * list (list pixel) :=
  (crop w img_L, crop w (warpAffine img_R (mat w) (W w, H w))).

Definition get_theta (w : Warper F) : list F := theta w.
End WarperDef.

(** ** MEHandler *)

(** Attributes of an [MEHandler]; [L2R_ME] and [R2L_ME] hold the current
    internal state of the two estimator handles. *)
Record MEHandler (MEState : Type) : Type := {
  me_H : Z;
  me_W : Z;
  loss_metric : string;
  runs_to_warm_up : Z;
  L2R_ME : MEState;
  R2L_ME : MEState
}.
Arguments Build_MEHandler {MEState}.
Arguments me_H {MEState} m.
Arguments me_W {MEState} m.
Arguments loss_metric {MEState} m.
Arguments runs_to_warm_up {MEState} m.
Arguments L2R_ME {MEState} m.
Arguments R2L_ME {MEState} m.

(** [a[..., ::4, ::4]] on a three-dimensional array. *)
Definition subsample4 {V : Type} (a : list (list (list V))) : list (list (list V)) :=
  map (fun ch => map (py_stride 4) (py_stride 4 ch)) a.

(** [a] has shape [(c, h, w)]. *)
Definition has_shape {V : Type} (c h w : nat) (a : list (list (list V))) : Prop :=
  length a = c /\
  Forall (fun ch => length ch = h /\ Forall (fun row => length row = w) ch) a.

Section MEHandlerDef.
Context {image V MEState : Type}.

(** The external estimator: [ME(W, H, loss_metric=...)] builds a handle,
    [handle.EstimateME(cur, ref)] returns a motion field and changes
    the handle. *)
Variable ME : Z -> Z -> string -> MEState.
Variable EstimateME : MEState -> image -> image -> MEState * list (list (list V)).

Definition MEHandler_init (H W : Z) (loss_metric : string) (runs_to_warm_up : Z)
    : MEHandler MEState :=
  Build_MEHandler H W loss_metric runs_to_warm_up
    (ME W H loss_metric) (ME W H loss_metric).

(** The body of [for _ in range(k): MEInstance.EstimateME(cur_img, ref_img)]. *)
Fixpoint warm_up_loop (k : nat) (MEInstance : MEState) (cur_img ref_img : image)
    : MEState :=
  match k with
  | O => MEInstance
  | S k' => warm_up_loop k' (fst (EstimateME MEInstance cur_img ref_img)) cur_img ref_img
  end.

Definition warmed_up_me (self : MEHandler MEState) (MEInstance : MEState)
    (cur_img ref_img : image) : MEState * list (list (list V)) :=
  EstimateME
    (warm_up_loop (Z.to_nat (runs_to_warm_up self - 1)) MEInstance cur_img ref_img)
    cur_img ref_img.

Definition calculate_disparity (self : MEHandler MEState) (img_l img_r : image)
    : MEHandler MEState * (list (list (list V)) * list (list (list V))) :=
  let (s_l2r, l2r) := warmed_up_me self (L2R_ME self) img_l img_r in
  let (s_r2l, r2l) := warmed_up_me self (R2L_ME self) img_r img_l in
  (Build_MEHandler (me_H self) (me_W self) (loss_metric self) (runs_to_warm_up self)
     s_l2r s_r2l,
   (subsample4 l2r, subsample4 r2l)).

(** [pickle_ME]: the constructor and the argument tuple it is to be
    applied to. *)
Definition pickle_ME (me : MEHandler MEState)
    : (Z * Z * string * Z -> MEHandler MEState) * (Z * Z * string * Z) :=
  (fun '(h, w, l, r) => MEHandler_init h w l r,
   (me_H me, me_W me, loss_metric me, runs_to_warm_up me)).

(** What unpickling does with the reduction registered through
    [copyreg.pickle(MEHandler, pickle_ME)]. *)
Definition reconstruct (me : MEHandler MEState) : MEHandler MEState :=
  let (ctor, args) := pickle_ME me in ctor args.

(** One invocation on a fixed pair, as a change of the handle. *)
Definition invoke (cur ref : image) (s : MEState) : MEState :=
  fst (EstimateME s cur ref).

End MEHandlerDef.

(** An estimator instrumented with the list of the input pairs it has
    been invoked on, oldest first. *)
Definition logged {image V MEState : Type}
    (EstimateME : MEState -> image -> image -> MEState * list (list (list V)))
    (s : MEState * list (image * image)) (cur ref : image)
    : (MEState * list (image * image)) * list (list (list V)) :=
  let (s', out) := EstimateME (fst s) cur ref in
  ((s', snd s ++ [(cur, ref)]), out).

(** The adapter after serving a list of image pairs in turn, as over
    successive calls of [__getitem__]; the outputs are not kept. *)
Fixpoint run_disparities {image V MEState : Type}
    (EstimateME : MEState -> image -> image -> MEState * list (list (list V)))
    (me : MEHandler MEState) (pairs : list (image * image)) : MEHandler MEState :=
  match pairs with
  | [] => me
  | (img_l, img_r) :: rest =>
      run_disparities EstimateME (fst (calculate_disparity EstimateME me img_l img_r)) rest
  end.

(** ** SynthDatasetME *)

(** A manifest row: the image name of the first column and the remaining
    columns. *)
Record Row : Type := { img_name : string; other_columns : list string }.

(** A frame is the list of its rows, each with its index label; a series
    is one labelled column. *)
Definition DataFrame : Type := list (Z * Row).
Definition Series : Type := list (Z * string).

(** Rows labelled from [a] on. *)
Definition labelled (a : nat) (rows : list Row) : DataFrame :=
  combine (map Z.of_nat (seq a (length rows))) rows.

(** [pd.read_csv]: rows are labelled 0, 1, 2, ... *)
Definition read_csv (rows : list Row) : DataFrame := labelled 0 rows.

(** [df.iloc[start:stop, :]] and [df.iloc[:, 0]] *)
Definition iloc_rows (start stop : Z) (df : DataFrame) : DataFrame :=
  py_slice start stop df.
Definition iloc_col0 (df : DataFrame) : Series :=
  map (fun lr => (fst lr, img_name (snd lr))) df.

(** [series[idx]] with an integer index: lookup by label. *)
Fixpoint series_getitem (s : Series) (idx : Z) : Exc string :=
  match s with
  | [] => Raise (KeyError idx)
  | (l, v) :: s' => if l =? idx then Ok v else series_getitem s' idx
  end.

Record SynthDatasetME (F MEState : Type) : Type := {
  train_data : DataFrame;
  dataset_size : Z;
  img_names : Series;
  dataset_image_path : string;
  geometric_model : string;
  crop_factor : F;
  me_handler : MEHandler MEState
}.
Arguments Build_SynthDatasetME {F MEState}.
Arguments train_data {F MEState} s.
Arguments dataset_size {F MEState} s.
Arguments img_names {F MEState} s.
Arguments dataset_image_path {F MEState} s.
Arguments geometric_model {F MEState} s.
Arguments crop_factor {F MEState} s.
Arguments me_handler {F MEState} s.

(** The dictionary returned by [__getitem__]. *)
Record Sample (F V : Type) : Type := {
  mv_L2R : list (list (list V));
  mv_R2L : list (list (list V));
  theta_GT : list F
}.
Arguments Build_Sample {F V}.
Arguments mv_L2R {F V} s.
Arguments mv_R2L {F V} s.
Arguments theta_GT {F V} s.

Section SynthDatasetMEDef.
Context {F : Type} `{PyFloat F}.
Context {MEState : Type}.
Variable ME : Z -> Z -> string -> MEState.

(** [int(n - n * crop)] *)
Definition me_dim (n : Z) (crop : F) : Exc Z :=
  fn <- f_of_int n ;;
  f_int (f_sub fn (f_mul fn crop)).

(** The manifest file is given by its rows. *)
Definition SynthDatasetME_init (manifest : list Row) (dataset_image_path : string)
    (h w : Z) (crop : F) (geometric_model : string) (dataset_size : Z)
    : Exc (SynthDatasetME F MEState) :=
  let train_data := read_csv manifest in
  let train_data :=
    if negb (dataset_size =? 0) then
      let dataset_size := Z.min dataset_size (Z.of_nat (length train_data)) in
      iloc_rows 0 dataset_size train_data
    else train_data in
  let img_names := iloc_col0 train_data in
  mh <- me_dim h crop ;;
  mw <- me_dim w crop ;;
  Ok (Build_SynthDatasetME train_data dataset_size img_names dataset_image_path
        geometric_model crop
        (MEHandler_init ME mh mw "colorindependent" 2)).

Definition SynthDatasetME_len (self : SynthDatasetME F MEState) : Z :=
  Z.of_nat (length (train_data self)).

(** The file name [__getitem__] looks up first: [self.img_names[idx]]. *)
Definition SynthDatasetME_img_name (self : SynthDatasetME F MEState) (idx : Z)
    : Exc string :=
  series_getitem (img_names self) idx.

Context {pixel V : Type}.
Variable EstimateME :
  MEState -> list (list pixel) -> list (list pixel) -> MEState * list (list (list V)).
Variable getRotationMatrix2D : Z * Z -> F -> F -> mat23 F.
Variable warpAffine : list (list pixel) -> mat23 F -> Z * Z -> list (list pixel).
(** [os.path.join], [skimage.io.imread] and the conversion of a motion
    vector component to [float32]. *)
Variable path_join : string -> string -> string.
Variable imread : string -> Exc (list (list pixel)).
Variable mv_astype_f32 : V -> V.

Definition SynthDatasetME_getitem (self : SynthDatasetME F MEState) (idx : Z)
    (d : Draws F) : Exc (SynthDatasetME F MEState * Sample F V) :=
  name <- SynthDatasetME_img_name self idx ;;
  image_L <- imread (path_join (dataset_image_path self) name) ;;
  let h := Z.of_nat (length image_L) in
  let w := Z.of_nat (length (hd [] image_L)) in
  warper <- Warper_init getRotationMatrix2D h w (geometric_model self)
              (crop_factor self) d ;;
  let (image_L, image_R) := warp warpAffine warper image_L image_L in
  let theta := get_theta warper in
  let (mh, mvs) := calculate_disparity EstimateME (me_handler self) image_L image_R in
  let to_tensor := map (map (map mv_astype_f32)) in
  Ok (Build_SynthDatasetME (train_data self) (dataset_size self) (img_names self)
        (dataset_image_path self) (geometric_model self) (crop_factor self) mh,
      Build_Sample (to_tensor (fst mvs)) (to_tensor (snd mvs)) (map f_to_f32 theta)).
End SynthDatasetMEDef.

(** ** The training script's dispatch on the model tag *)

(** [train.py], lines 72-77: the output dimension of the network. *)
Definition cnn_output_dim (geometric_model : string) : Exc Z :=
  if String.eqb geometric_model "affine_simple" then Ok 3
  else if String.eqb geometric_model "affine_simple_4" then Ok 4
  else Raise (NotImplementedError "Specified geometric model is unsupported").

(** [train.py], lines 83-86: the vector added to the bias of the last
    layer; [None] when neither test holds and the name stays unbound. *)
Definition init_theta {F : Type} `{PyFloat F} (geometric_model : string)
    : option (list F) :=
  if String.eqb geometric_model "affine_simple" then
    Some [f_lit 0 1; f_lit 1 1; f_lit 0 1]
  else if String.eqb geometric_model "affine_simple_4" then
    Some [f_lit 0 1; f_lit 1 1; f_lit 0 1; f_lit 0 1]
  else None.

(** ** Closed inputs *)

(** Stands in for [cv2.getRotationMatrix2D] in closed examples: OpenCV's
    matrix [[s, 0, (1-s)*cx], [0, s, (1-s)*cy]] at angle 0. *)
Definition rotation_at_angle_0 (center : Z * Z) (angle scale : B64.t) : mat23 B64.t :=
  let one_minus := B64.sub (B64.lit 1 1) scale in
  Build_mat23 scale (B64.lit 0 1) (B64.mul one_minus (B64.of_Z (fst center)))
              (B64.lit 0 1) scale (B64.mul one_minus (B64.of_Z (snd center))).

(** Draws with [np.random.rand(1) = 0.9] and selector 4. *)
Definition draws_identity : Draws B64.t :=
  Build_Draws B64.t (B64.lit 9 10) 4 (B64.lit 1 2) (B64.lit 1 2) (B64.lit 1 2).

(** Draws with [np.random.rand(1) = 0.9], selector 4, and the draws 0.25,
    0.75 and 0.125 for rotation, scale and vertical shift. *)
Definition draws_mixed : Draws B64.t :=
  Build_Draws B64.t (B64.lit 9 10) 4 (B64.lit 1 4) (B64.lit 3 4) (B64.lit 1 8).


(** An [h] x [w] test image whose pixel at row [i], column [j] is [(i, j)]. *)
Definition coords (h w : nat) : list (list (nat * nat)) :=
  map (fun i => map (fun j => (i, j)) (seq 0 w)) (seq 0 h).

(** A window of it: rows [i0 .. i0+h-1], columns [j0 .. j0+w-1]. *)
Definition window (i0 h j0 w : nat) : list (list (nat * nat)) :=
  map (fun i => map (fun j => (i, j)) (seq j0 w)) (seq i0 h).

Definition counting_estimator (s : nat) (cur ref : Z) : nat * list (list (list Z)) :=
  (S s, [[[Z.of_nat (S s)]]]).


(** An estimator whose first invocation on a handle returns a zero field
    and every later one the field of constant value [cur - ref], both of
    shape (2, H, W); images are represented by integers. *)
Definition settling_ME (W H : Z) (l : string) : Z * Z * nat := (W, H, O).
Definition settling_estimator (s : Z * Z * nat) (cur ref : Z)
    : (Z * Z * nat) * list (list (list Z)) :=
  let '(W, H, c) := s in
  ((W, H, S c),
   repeat (repeat (repeat (match c with O => 0 | S _ => cur - ref end) (Z.to_nat W))
             (Z.to_nat H)) 2).

(** Stand-ins for the file system and the image primitives in closed
    examples: every path reads as the 16 x 16 test image, resampling
    returns its input, joining puts a slash between directory and name,
    and the settling estimator sees an image through its number of rows. *)
Definition imread_16 (path : string) : Exc (list (list (nat * nat))) :=
  Ok (coords 16 16).
Definition warpAffine_same (img : list (list (nat * nat))) (m : mat23 B64.t)
    (dsize : Z * Z) : list (list (nat * nat)) := img.
Definition path_join_slash (dir name : string) : string :=
  (dir ++ "/" ++ name)%string.
Definition settling_estimator_on_images (s : Z * Z * nat)
    (cur ref : list (list (nat * nat))) : (Z * Z * nat) * list (list (list Z)) :=
  settling_estimator s (Z.of_nat (length cur)) (Z.of_nat (length ref)).

(** A manifest of ten rows. *)
Definition ten_rows : list Row :=
  map (fun name => Build_Row name [])
    ["img0.png"; "img1.png"; "img2.png"; "img3.png"; "img4.png";
     "img5.png"; "img6.png"; "img7.png"; "img8.png"; "img9.png"]%string.

(** * Properties *)

(** ** Slices *)

Section SliceFacts.
Context {A : Type}.

Lemma py_stride_from_nil (fuel step : nat) :
  py_stride_from fuel step (@nil A) = [].
Proof. destruct fuel; reflexivity. Qed.

Lemma py_stride_from_length (k : nat) :
  forall (fuel : nat) (l : list A),
    (length l <= fuel)%nat ->
    length (py_stride_from fuel (S k) l) = ((length l + k) / S k)%nat.
Proof.
  induction fuel as [|fuel IH]; intros l Hl.
  - destruct l; [|simpl in Hl; lia].
    cbn [py_stride_from length]. rewrite Nat.add_0_l, Nat.div_small by lia.
    reflexivity.
  - destruct l as [|x l'].
    + cbn [py_stride_from length]. rewrite Nat.add_0_l, Nat.div_small by lia.
      reflexivity.
    + cbn [py_stride_from skipn length]. cbn [length] in Hl.
      rewrite IH by (rewrite length_skipn; lia).
      rewrite length_skipn.
      destruct (Nat.le_gt_cases k (length l')) as [Hk|Hk].
      * replace (length l' - k + k)%nat with (length l') by lia.
        replace (S (length l') + k)%nat with (length l' + 1 * S k)%nat by lia.
        rewrite Nat.div_add by lia. lia.
      * replace (length l' - k + k)%nat with k by lia.
        rewrite (Nat.div_small k (S k)) by lia.
        apply (Nat.div_unique _ _ 1%nat (length l')); lia.
Qed.

Lemma py_stride_from_nth (k : nat) (d : A) :
  forall (fuel : nat) (l : list A) (i : nat),
    (length l <= fuel)%nat ->
    nth i (py_stride_from fuel (S k) l) d = nth (i * S k) l d.
Proof.
  induction fuel as [|fuel IH]; intros l i Hl.
  - destruct l; [|simpl in Hl; lia].
    simpl. destruct i; destruct (_ * _)%nat; reflexivity.
  - destruct l as [|x l'].
    + simpl. destruct i; destruct (_ * _)%nat; reflexivity.
    + cbn [py_stride_from]. simpl in Hl. destruct i as [|i].
      * reflexivity.
      * cbn [nth]. rewrite IH by (cbn [skipn]; rewrite length_skipn; lia).
        cbn [skipn].
        replace (S i * S k)%nat with (S (k + i * S k)) by lia.
        cbn [nth]. rewrite nth_skipn. reflexivity.
Qed.

Lemma py_stride_from_In (step : nat) (x : A) :
  forall (fuel : nat) (l : list A), In x (py_stride_from fuel step l) -> In x l.
Proof.
  induction fuel as [|fuel IH]; intros l Hin; [destruct Hin|].
  destruct l as [|y l']; [destruct Hin|].
  cbn [py_stride_from] in Hin. destruct Hin as [<-|Hin]; [left; reflexivity|].
  apply IH in Hin.
  rewrite <- (firstn_skipn step (y :: l')). apply in_or_app. right. exact Hin.
Qed.

Lemma py_stride_In (step : nat) (l : list A) (x : A) :
  In x (py_stride step l) -> In x l.
Proof. apply py_stride_from_In. Qed.

(** [l[::4]] has [ceil(len/4)] elements, the ones at 0, 4, 8, ... *)
Lemma py_stride4_length (l : list A) :
  length (py_stride 4 l) = ((length l + 3) / 4)%nat.
Proof. unfold py_stride. apply py_stride_from_length. lia. Qed.

Lemma py_stride4_nth (l : list A) (i : nat) (d : A) :
  nth i (py_stride 4 l) d = nth (4 * i) l d.
Proof.
  unfold py_stride. rewrite py_stride_from_nth by lia.
  f_equal. lia.
Qed.

(** [l[a:-a]] when [0 < a] and [2*a <= len(l)]: the first and the last
    [a] elements are removed. *)
Lemma py_slice_border (a : Z) (l : list A) :
  0 < a -> 2 * a <= Z.of_nat (length l) ->
  py_slice a (- a) l =
    firstn (length l - 2 * Z.to_nat a) (skipn (Z.to_nat a) l).
Proof.
  intros Ha Hl. unfold py_slice, clamp_index.
  destruct (Z.ltb_spec a 0); [lia|].
  destruct (Z.ltb_spec (- a) 0); [|lia].
  f_equal; [|f_equal]; lia.
Qed.

Lemma py_slice_border_length (a : Z) (l : list A) :
  0 < a -> 2 * a <= Z.of_nat (length l) ->
  Z.of_nat (length (py_slice a (- a) l)) = Z.of_nat (length l) - 2 * a.
Proof.
  intros Ha Hl. rewrite py_slice_border by assumption.
  rewrite length_firstn, length_skipn. lia.
Qed.

Lemma py_slice_border_nth (a : Z) (l : list A) (i : nat) (d : A) :
  0 < a -> 2 * a <= Z.of_nat (length l) ->
  Z.of_nat i < Z.of_nat (length l) - 2 * a ->
  nth i (py_slice a (- a) l) d = nth (Z.to_nat a + i) l d.
Proof.
  intros Ha Hl Hi. rewrite py_slice_border by assumption.
  rewrite nth_firstn.
  destruct (Nat.ltb_spec i (length l - 2 * Z.to_nat a)); [|lia].
  apply nth_skipn.
Qed.

Lemma in_firstn_skipn (n m : nat) (l : list A) (x : A) :
  In x (firstn n (skipn m l)) -> In x l.
Proof.
  intros Hin.
  rewrite <- (firstn_skipn m l). apply in_or_app. right.
  rewrite <- (firstn_skipn n (skipn m l)). apply in_or_app. left. exact Hin.
Qed.

(** [l[0:-0]] is [l[0:0]]: nothing is kept. *)
Lemma py_slice_zero (l : list A) : py_slice 0 (- 0) l = [].
Proof.
  unfold py_slice, clamp_index. simpl.
  destruct (length l); reflexivity.
Qed.

(** [l[0:k]] for [0 <= k]: the first [min k len] elements. *)
Lemma py_slice_prefix (k : Z) (l : list A) :
  0 <= k -> py_slice 0 k l = firstn (Z.to_nat k) l.
Proof.
  intros Hk. unfold py_slice, clamp_index.
  destruct (Z.ltb_spec k 0); [lia|].
  change (0 <? 0) with false. cbv iota.
  rewrite (Z.min_l 0) by lia. cbn [Z.to_nat skipn].
  rewrite Z.sub_0_r.
  destruct (Z.le_gt_cases k (Z.of_nat (length l))).
  - rewrite Z.min_l by lia. reflexivity.
  - rewrite Z.min_r by lia. rewrite Nat2Z.id.
    rewrite !firstn_all2 by lia. reflexivity.
Qed.

(** [l[0:k]] for [k < 0]: the last [|k|] elements are dropped. *)
Lemma py_slice_drop_last (k : Z) (l : list A) :
  k < 0 -> py_slice 0 k l = firstn (Z.to_nat (Z.of_nat (length l) + k)) l.
Proof.
  intros Hk. unfold py_slice, clamp_index.
  destruct (Z.ltb_spec k 0); [|lia].
  change (0 <? 0) with false. cbv iota.
  rewrite (Z.min_l 0) by lia. cbn [Z.to_nat skipn].
  rewrite Z.sub_0_r. f_equal. lia.
Qed.
End SliceFacts.

(** ** Warper construction *)

Section WarperFacts.
Context {F : Type} `{PyFloat F}.
Variable getRotationMatrix2D : Z * Z -> F -> F -> mat23 F.


Lemma sample_transform_theta_length (H W : Z) (fW : F) (d : Draws F)
    (mt : mat23 F * list F) :
  sample_transform getRotationMatrix2D H W fW d = Ok mt ->
  length (snd mt) = 4%nat.
Proof.
  unfold sample_transform. destruct (randint_sel d =? 4).
  - intros [= <-]. reflexivity.
  - destruct (f_of_int H) as [fH|e]; [|discriminate]. cbn [bind].
    destruct (py_truediv _ fH) as [ty|e]; [|discriminate].
    cbn [bind]. intros [= <-]. reflexivity.
Qed.

Lemma Warper_init_4_theta_length (H W : Z) (crop : F) (d : Draws F) (w : Warper F) :
  Warper_init getRotationMatrix2D H W "affine_simple_4" crop d = Ok w ->
  length (theta w) = 4%nat /\ add_tx w = Some true.
Proof.
  unfold Warper_init.
  change (String.eqb "affine_simple_4" "affine_simple_4") with true.
  cbn [bind].
  destruct (crop_offset H crop) as [ho|e]; [|discriminate].
  destruct (crop_offset W crop) as [wo|e]; [|discriminate].
  cbn [bind].
  destruct (f_of_int W) as [fW|e]; [|discriminate]. cbn [bind].
  destruct (sample_transform getRotationMatrix2D H W fW d) as [mt|e] eqn:Es;
    [|discriminate].
  cbn. intros [= <-]. cbn. split; [|reflexivity].
  apply (sample_transform_theta_length _ _ _ _ _ Es).
Qed.


(** The sampling step and the offsets do not look at the model tag: up
    to the final test of [self.add_tx] both supported tags behave
    alike, and there the 3-parameter tag reads an attribute that was
    never assigned. *)
Lemma Warper_init_affine_simple (H W : Z) (crop : F) (d : Draws F) :
  match Warper_init getRotationMatrix2D H W "affine_simple_4" crop d with
  | Ok _ =>
      Warper_init getRotationMatrix2D H W "affine_simple" crop d =
        Raise (AttributeError "add_tx")
  | Raise e =>
      Warper_init getRotationMatrix2D H W "affine_simple" crop d = Raise e
  end.
Proof.
  unfold Warper_init.
  change (String.eqb "affine_simple_4" "affine_simple_4") with true.
  change (String.eqb "affine_simple" "affine_simple_4") with false.
  change (String.eqb "affine_simple" "affine_simple") with true.
  cbn [bind].
  destruct (crop_offset H crop) as [ho|e]; [|reflexivity].
  destruct (crop_offset W crop) as [wo|e]; [|reflexivity].
  cbn [bind].
  destruct (f_of_int W) as [fW|e]; [|reflexivity]. cbn [bind].
  destruct (sample_transform getRotationMatrix2D H W fW d) as [mt|e];
    reflexivity.
Qed.
End WarperFacts.

(** C1 (3- and 4-parameter model tags).  For every height, width, crop
    fraction and outcome of the random draws: whenever construction with
    the tag ['affine_simple_4'] yields a warper, its theta has exactly 4
    components, and construction with the tag ['affine_simple'] on the
    same inputs raises [AttributeError] for [add_tx] (that tag assigns
    [add_ty], and [add_tx] is read afterwards); whenever the 4-parameter
    construction raises, the 3-parameter one raises the same exception.
    So ['affine_simple'] never yields a warper: no 3-component theta and
    no matrix with a zeroed horizontal translation is ever produced. *)
Theorem Warper_affine_simple_never_constructed
    {F : Type} `{PyFloat F} (getRotationMatrix2D : Z * Z -> F -> F -> mat23 F)
    (H W : Z) (crop : F) (d : Draws F) :
  (exists e, Warper_init getRotationMatrix2D H W "affine_simple" crop d = Raise e) /\
  match Warper_init getRotationMatrix2D H W "affine_simple_4" crop d with
  | Ok w4 =>
      length (theta w4) = 4%nat /\
      Warper_init getRotationMatrix2D H W "affine_simple" crop d =
        Raise (AttributeError "add_tx")
  | Raise e =>
      Warper_init getRotationMatrix2D H W "affine_simple" crop d = Raise e
  end.
Proof.
  pose proof (Warper_init_affine_simple getRotationMatrix2D H W crop d) as Hs.
  pose proof (Warper_init_4_theta_length getRotationMatrix2D H W crop d) as Hl.
  destruct (Warper_init getRotationMatrix2D H W "affine_simple_4" crop d) as [w4|e].
  - split; [eexists; exact Hs|].
    split; [apply (Hl w4 eq_refl)|exact Hs].
  - split; [eexists; exact Hs|exact Hs].
Qed.

(** The same at [Warper(256, 256, 'affine_simple', 0.2)] in double
    precision, whatever the draws and the rotation primitive. *)
Example Warper_256_affine_simple_raises
    (getRotationMatrix2D : Z * Z -> B64.t -> B64.t -> mat23 B64.t) (d : Draws B64.t) :
  Warper_init getRotationMatrix2D 256 256 "affine_simple" (B64.lit 2 10) d =
    Raise (AttributeError "add_tx").
Proof.
  unfold Warper_init.
  change (String.eqb "affine_simple" "affine_simple_4") with false.
  change (String.eqb "affine_simple" "affine_simple") with true.
  cbn [bind].
  replace (crop_offset 256 (B64.lit 2 10)) with (@Ok Z 25) by (vm_compute; reflexivity).
  cbn [bind]. unfold sample_transform.
  destruct (randint_sel d =? 4); reflexivity.
Qed.

(** In double precision, for [W = 256]: the draw 0 gives [-(0.1 * 256)],
    and the largest draw below 1 gives a shift below [0.1 * 256]. *)
Example draw_tx_binary64_extremes :
  draw_tx (S754_zero false) (B64.of_Z 256) =
    SFopp (B64.mul (B64.lit 1 10) (B64.of_Z 256)) /\
  SFcompare (draw_tx (S754_finite false 9007199254740991 (-53)) (B64.of_Z 256))
            (B64.mul (B64.lit 1 10) (B64.of_Z 256)) = Some Lt.
Proof. split; vm_compute; reflexivity. Qed.




(** ** Cropping *)

Section CropFacts.
Context {F : Type} {pixel : Type}.

(** With positive offsets that fit, [crop] removes [H_off] rows from the
    top and from the bottom and [W_off] columns from the left and from
    the right. *)
Lemma crop_removes_border (w : Warper F) (img : list (list pixel)) (Wn : Z) :
  0 < H_off w -> 0 < W_off w ->
  2 * H_off w <= Z.of_nat (length img) ->
  2 * W_off w <= Wn ->
  Forall (fun row => Z.of_nat (length row) = Wn) img ->
  Z.of_nat (length (crop w img)) = Z.of_nat (length img) - 2 * H_off w /\
  Forall (fun row => Z.of_nat (length row) = Wn - 2 * W_off w) (crop w img) /\
  forall (i j : nat) (d : pixel),
    Z.of_nat i < Z.of_nat (length img) - 2 * H_off w ->
    Z.of_nat j < Wn - 2 * W_off w ->
    nth j (nth i (crop w img) []) d =
      nth (Z.to_nat (W_off w) + j) (nth (Z.to_nat (H_off w) + i) img []) d.
Proof.
  intros Hh Hw Hlen HWn Hrows. unfold crop.
  assert (Hsub : Forall (fun row => Z.of_nat (length row) = Wn)
                   (py_slice (H_off w) (- H_off w) img)).
  { rewrite py_slice_border by assumption.
    apply Forall_forall. intros row Hin.
    apply (proj1 (Forall_forall _ _) Hrows).
    apply in_firstn_skipn in Hin. exact Hin. }
  split; [|split].
  - rewrite length_map. apply py_slice_border_length; assumption.
  - apply Forall_map. revert Hsub. apply Forall_impl. intros row Hrow.
    rewrite py_slice_border_length by lia. lia.
  - intros i j d Hi Hj.
    assert (Hi' : (i < length (py_slice (H_off w) (- H_off w) img))%nat).
    { apply Nat2Z.inj_lt. rewrite py_slice_border_length by assumption. exact Hi. }
    rewrite (nth_indep _ [] (py_slice (W_off w) (- W_off w) [])) by
      (rewrite length_map; exact Hi').
    rewrite map_nth.
    assert (Hrow : Z.of_nat (length (nth i (py_slice (H_off w) (- H_off w) img) [])) = Wn).
    { apply (proj1 (Forall_forall _ _) Hsub). apply nth_In. exact Hi'. }
    rewrite py_slice_border_nth by lia.
    rewrite py_slice_border_nth by assumption.
    reflexivity.
Qed.

(** With a zero offset the stop bound [-0] is 0, and the slice along
    that axis is empty. *)
Lemma crop_zero_H_off (w : Warper F) (img : list (list pixel)) :
  H_off w = 0 -> crop w img = [].
Proof.
  intros Hz. unfold crop. rewrite Hz, py_slice_zero. reflexivity.
Qed.

Lemma crop_zero_W_off (w : Warper F) (img : list (list pixel)) :
  W_off w = 0 -> Forall (fun row => row = []) (crop w img).
Proof.
  intros Hz. unfold crop. rewrite Hz. apply Forall_map, Forall_forall.
  intros row _. apply py_slice_zero.
Qed.
End CropFacts.

Lemma Warper_init_offsets {F : Type} `{PyFloat F}
    (getRotationMatrix2D : Z * Z -> F -> F -> mat23 F)
    (H W : Z) (geometric_model : string) (crop : F) (d : Draws F) (w : Warper F) :
  Warper_init getRotationMatrix2D H W geometric_model crop d = Ok w ->
  crop_offset H crop = Ok (H_off w) /\ crop_offset W crop = Ok (W_off w).
Proof.
  unfold Warper_init.
  destruct (if String.eqb geometric_model "affine_simple_4" then _ else _) as [flags|e];
    [|discriminate].
  cbn [bind].
  destruct (crop_offset H crop) as [ho|e]; [|discriminate].
  destruct (crop_offset W crop) as [wo|e]; [|discriminate].
  cbn [bind].
  destruct (f_of_int W) as [fW|e]; [|discriminate]. cbn [bind].
  destruct (sample_transform getRotationMatrix2D H W fW d) as [mt|e]; [|discriminate].
  cbn [bind].
  destruct (getattr_bool "add_tx" (fst flags)) as [b|e]; [|discriminate].
  cbn [bind].
  destruct (negb b); intros [= <-]; cbn; auto.
Qed.

(** C6 (crop offsets and cropping).  [Warper(256, 256, crop=0.2)] has
    [H_off = W_off = 25] and its [crop] keeps rows and columns 25..230 of
    a 256x256 image, a 206x206 result.  [Warper(256, 256, crop=0.005)]
    has [H_off = W_off = int(1.28) // 2 = 0], and its [crop] returns no
    row at all, where removing 0 rows and columns would keep the whole
    256x256 image. *)
Theorem crop_256_scenario_and_zero_offsets :
  (exists w,
     Warper_init rotation_at_angle_0 256 256 "affine_simple_4" (B64.lit 2 10)
       draws_identity = Ok w /\
     H_off w = 25 /\ W_off w = 25 /\
     crop w (coords 256 256) = window 25 206 25 206) /\
  (exists w,
     Warper_init rotation_at_angle_0 256 256 "affine_simple_4" (B64.lit 5 1000)
       draws_identity = Ok w /\
     H_off w = 0 /\ W_off w = 0 /\
     crop w (coords 256 256) = [] /\
     window 0 (256 - 2 * 0) 0 (256 - 2 * 0) = coords 256 256).
Proof.
  split.
  - eexists. split; [vm_compute; reflexivity|].
    split; [reflexivity|]. split; [reflexivity|].
    vm_compute. reflexivity.
  - eexists. split; [vm_compute; reflexivity|].
    split; [reflexivity|]. split; [reflexivity|].
    split; vm_compute; reflexivity.
Qed.

(** C7 (zero crop offset).  [Warper(256, 256, crop=0.0)] is constructed
    without error and has [H_off = W_off = 0]; its [crop] raises nothing
    and returns an image with no rows, not the 256x256 image it was given.
    With [Warper(8, 256, crop=0.2)], where only [H_off] is 0, the result
    is empty as well. *)
Theorem crop_with_zero_offset_returns_nothing :
  (exists w,
     Warper_init rotation_at_angle_0 256 256 "affine_simple_4" (B64.lit 0 1)
       draws_identity = Ok w /\
     H_off w = 0 /\ W_off w = 0 /\
     crop w (coords 256 256) = [] /\
     length (coords 256 256) = 256%nat) /\
  (exists w,
     Warper_init rotation_at_angle_0 8 256 "affine_simple_4" (B64.lit 2 10)
       draws_identity = Ok w /\
     H_off w = 0 /\ W_off w = 25 /\
     crop w (coords 8 256) = []).
Proof.
  split.
  - eexists. split; [vm_compute; reflexivity|].
    split; [reflexivity|]. split; [reflexivity|].
    split; vm_compute; reflexivity.
  - eexists. split; [vm_compute; reflexivity|].
    split; [reflexivity|]. split; [reflexivity|].
    vm_compute. reflexivity.
Qed.

(** ** Size of the estimator adapter *)

Section AdapterSize.
Context {F : Type} `{PyFloat F} {MEState : Type}.
Variable ME : Z -> Z -> string -> MEState.

(** The adapter built by the dataset constructor: its scalars and its
    two fresh handles. *)
Lemma SynthDatasetME_init_me_handler (manifest : list Row) (path : string)
    (h w : Z) (crop : F) (gm : string) (n : Z) (ds : SynthDatasetME F MEState) :
  SynthDatasetME_init ME manifest path h w crop gm n = Ok ds ->
  exists mh mw,
    me_dim h crop = Ok mh /\ me_dim w crop = Ok mw /\
    me_handler ds = MEHandler_init ME mh mw "colorindependent" 2.
Proof.
  unfold SynthDatasetME_init.
  destruct (me_dim h crop) as [mh|e]; [|discriminate].
  destruct (me_dim w crop) as [mw|e]; [|discriminate].
  cbn [bind]. intros [= <-]. exists mh, mw. cbn. auto.
Qed.
End AdapterSize.

(** C2 (adapter sized to the post-crop image).  For a dataset built with
    [h = w = 256] and [crop = 0.2], the adapter constructed by
    [SynthDatasetME.__init__] has height and width
    [int(256 - 256*0.2) = 204], while the warper of the same crop fraction
    has offsets [int(256*0.2) // 2 = 25] and crops a 256x256 image to
    [256 - 2*25 = 206] rows and columns: the adapter is not sized to the
    post-crop dimensions. *)
Theorem me_handler_size_differs_from_cropped_size
    {MEState : Type} (ME : Z -> Z -> string -> MEState) (manifest : list Row) :
  exists ds w,
    SynthDatasetME_init ME manifest "images" 256 256 (B64.lit 2 10) "affine_simple_4" 0 = Ok ds /\
    me_H (me_handler ds) = 204 /\ me_W (me_handler ds) = 204 /\
    Warper_init rotation_at_angle_0 256 256 "affine_simple_4" (B64.lit 2 10)
      draws_identity = Ok w /\
    256 - 2 * H_off w = 206 /\ 256 - 2 * W_off w = 206 /\
    length (crop w (coords 256 256)) = 206%nat /\
    Forall (fun row => length row = 206%nat) (crop w (coords 256 256)).
Proof.
  eexists. eexists.
  split; [unfold SynthDatasetME_init;
          replace (me_dim 256 (B64.lit 2 10)) with (@Ok Z 204) by (vm_compute; reflexivity);
          cbn [bind]; reflexivity|].
  split; [reflexivity|]. split; [reflexivity|].
  split; [vm_compute; reflexivity|].
  split; [reflexivity|]. split; [reflexivity|].
  split; [vm_compute; reflexivity|].
  apply Forall_forall. intros row Hin.
  assert (Hc : crop (pixel:=nat * nat)
                 (Build_Warper (F:=B64.t) (Some true) None 256 256 25 25
                    (Build_mat23 (B64.lit 1 1) (B64.lit 0 1) (B64.lit 0 1)
                                 (B64.lit 0 1) (B64.lit 1 1) (B64.lit 0 1)) [])
                 (coords 256 256) = window 25 206 25 206)
    by (vm_compute; reflexivity).
  unfold crop in *. cbn [H_off W_off] in *. rewrite Hc in Hin.
  unfold window in Hin. apply in_map_iff in Hin. destruct Hin as [i [<- _]].
  rewrite length_map, length_seq. reflexivity.
Qed.

(** ** The estimator adapter *)

Section SubsampleFacts.
Context {V : Type}.

Lemma subsample4_nth (a : list (list (list V))) (c i j : nat) (d : V) :
  nth j (nth i (nth c (subsample4 a) []) []) d =
    nth (4 * j) (nth (4 * i) (nth c a []) []) d.
Proof.
  unfold subsample4.
  pose (f := fun ch : list (list V) => map (py_stride 4) (py_stride 4 ch)).
  assert (E1 : nth c (map f a) [] = f (nth c a []))
    by exact (map_nth f a [] c).
  fold f. rewrite E1. unfold f.
  assert (E2 : forall x : list (list V),
             nth i (map (py_stride 4) x) [] = py_stride 4 (nth i x []))
    by (intros x; exact (map_nth (py_stride 4) x [] i)).
  rewrite E2, py_stride4_nth, py_stride4_nth. reflexivity.
Qed.

Lemma stride4_divisible (n : nat) : Nat.divide 16 n -> ((n + 3) / 4 = n / 4)%nat.
Proof.
  intros [q ->].
  replace (q * 16)%nat with ((4 * q) * 4)%nat by lia.
  rewrite Nat.div_mul by lia.
  rewrite Nat.div_add_l by lia.
  rewrite (Nat.div_small 3 4) by lia. lia.
Qed.

Lemma subsample4_shape (a : list (list (list V))) (c h w : nat) :
  Nat.divide 16 h -> Nat.divide 16 w ->
  has_shape c h w a -> has_shape c (h / 4) (w / 4) (subsample4 a).
Proof.
  intros Hh Hw [Hc Hrows]. unfold subsample4. split.
  - rewrite length_map. exact Hc.
  - apply Forall_map. revert Hrows. apply Forall_impl.
    intros ch [Hlen Hch]. split.
    + rewrite length_map, py_stride4_length, Hlen. apply stride4_divisible, Hh.
    + apply Forall_map. apply Forall_forall. intros row Hin.
      rewrite py_stride4_length.
      rewrite (proj1 (Forall_forall _ _) Hch row (py_stride_In _ _ _ Hin)).
      apply stride4_divisible, Hw.
Qed.
End SubsampleFacts.

Section MEHandlerFacts.
Context {image V MEState : Type}.
Variable ME : Z -> Z -> string -> MEState.
Variable EstimateME : MEState -> image -> image -> MEState * list (list (list V)).

Lemma warm_up_loop_iter (k : nat) (s : MEState) (cur ref : image) :
  warm_up_loop EstimateME k s cur ref = Nat.iter k (invoke EstimateME cur ref) s.
Proof.
  revert s. induction k as [|k IH]; intros s; [reflexivity|].
  cbn [warm_up_loop]. rewrite IH.
  change (fst (EstimateME s cur ref)) with (invoke EstimateME cur ref s).
  symmetry. apply Nat.iter_succ_r.
Qed.

Lemma warm_up_loop_logged (k : nat) (s : MEState) (log : list (image * image))
    (cur ref : image) :
  warm_up_loop (logged EstimateME) k (s, log) cur ref =
    (Nat.iter k (invoke EstimateME cur ref) s, log ++ repeat (cur, ref) k).
Proof.
  revert s log. induction k as [|k IH]; intros s log.
  - cbn. rewrite app_nil_r. reflexivity.
  - cbn [warm_up_loop]. unfold logged at 2. cbn [fst snd].
    destruct (EstimateME s cur ref) as [s' out] eqn:E. cbn [fst].
    rewrite IH. rewrite <- app_assoc. cbn [app repeat].
    rewrite Nat.iter_succ_r. unfold invoke at 3. rewrite E. reflexivity.
Qed.

Lemma warmed_up_me_logged (self : MEHandler (MEState * list (image * image)))
    (s : MEState) (log : list (image * image)) (cur ref : image) :
  let k := Z.to_nat (runs_to_warm_up self - 1) in
  let s_last := Nat.iter k (invoke EstimateME cur ref) s in
  warmed_up_me (logged EstimateME) self (s, log) cur ref =
    ((fst (EstimateME s_last cur ref), log ++ repeat (cur, ref) (S k)),
     snd (EstimateME s_last cur ref)).
Proof.
  intros k s_last. unfold warmed_up_me. fold k.
  rewrite warm_up_loop_logged. fold s_last. unfold logged. cbn [fst snd].
  destruct (EstimateME s_last cur ref) as [s' out]. cbn [fst snd].
  rewrite <- app_assoc. rewrite <- repeat_cons. reflexivity.
Qed.

(** C3 (warm-up).  For every warm-up count [n >= 1], handle state and
    (current, reference) pair, one call of [warmed_up_me] invokes the
    estimator handle exactly [n] times, each time on that same pair (the
    handle's invocation log grows by [n] copies of the pair), and returns
    the output of the last of these invocations, the one made on the
    handle as the first [n - 1] invocations left it. *)
Theorem warmed_up_me_invocations
    (self : MEHandler (MEState * list (image * image)))
    (s : MEState) (log : list (image * image)) (cur ref : image) (n : Z) :
  runs_to_warm_up self = n ->
  1 <= n ->
  let s_last := Nat.iter (Z.to_nat n - 1) (invoke EstimateME cur ref) s in
  warmed_up_me (logged EstimateME) self (s, log) cur ref =
    ((fst (EstimateME s_last cur ref), log ++ repeat (cur, ref) (Z.to_nat n)),
     snd (EstimateME s_last cur ref)).
Proof.
  intros Hn Hge s_last.
  pose proof (warmed_up_me_logged self s log cur ref) as Hw. cbv zeta in Hw.
  rewrite Hn in Hw.
  replace (Z.to_nat (n - 1)) with (Z.to_nat n - 1)%nat in Hw by lia.
  replace (S (Z.to_nat n - 1)) with (Z.to_nat n) in Hw by lia.
  exact Hw.
Qed.

(** C4 (disparity).  [calculate_disparity] runs the warmed-up estimate
    on the handle [L2R_ME] with the left image as current and the right
    one as reference, and on the handle [R2L_ME] with the right image as
    current and the left one as reference (each log grows by the
    corresponding pair only).  When the two estimates are fields of
    shape (2, H, W) with H and W divisible by 16, the returned pair is
    (forward, backward), each of shape (2, H/4, W/4), and the entry
    [c, i, j] of each is the entry [c, 4*i, 4*j] of the field it comes
    from. *)
Theorem calculate_disparity_fields
    (self : MEHandler (MEState * list (image * image)))
    (img_l img_r : image) (Hn Wn : nat) :
  let k := S (Z.to_nat (runs_to_warm_up self - 1)) in
  let l2r := snd (warmed_up_me (logged EstimateME) self (L2R_ME self) img_l img_r) in
  let r2l := snd (warmed_up_me (logged EstimateME) self (R2L_ME self) img_r img_l) in
  let res := calculate_disparity (logged EstimateME) self img_l img_r in
  Nat.divide 16 Hn -> Nat.divide 16 Wn ->
  has_shape 2 Hn Wn l2r -> has_shape 2 Hn Wn r2l ->
  snd (L2R_ME (fst res)) = snd (L2R_ME self) ++ repeat (img_l, img_r) k /\
  snd (R2L_ME (fst res)) = snd (R2L_ME self) ++ repeat (img_r, img_l) k /\
  has_shape 2 (Hn / 4) (Wn / 4) (fst (snd res)) /\
  has_shape 2 (Hn / 4) (Wn / 4) (snd (snd res)) /\
  (forall (c i j : nat) (d : V),
      nth j (nth i (nth c (fst (snd res)) []) []) d =
        nth (4 * j) (nth (4 * i) (nth c l2r []) []) d) /\
  (forall (c i j : nat) (d : V),
      nth j (nth i (nth c (snd (snd res)) []) []) d =
        nth (4 * j) (nth (4 * i) (nth c r2l []) []) d).
Proof.
  intros k l2r r2l res HH HW Hl Hr.
  subst res l2r r2l. unfold calculate_disparity.
  destruct (L2R_ME self) as [sl logl] eqn:El.
  destruct (R2L_ME self) as [sr logr] eqn:Er.
  pose proof (warmed_up_me_logged self sl logl img_l img_r) as H1.
  pose proof (warmed_up_me_logged self sr logr img_r img_l) as H2.
  cbv zeta in H1, H2. fold k in H1, H2.
  rewrite H1, H2 in *. cbn [fst snd L2R_ME R2L_ME] in *.
  split; [reflexivity|]. split; [reflexivity|].
  split; [apply subsample4_shape; assumption|].
  split; [apply subsample4_shape; assumption|].
  split; intros; apply subsample4_nth.
Qed.
End MEHandlerFacts.

(** ** Reconstruction from the four constructor scalars *)

Section ReconstructFacts.
Context {image V MEState : Type}.
Variable ME : Z -> Z -> string -> MEState.
Variable EstimateME : MEState -> image -> image -> MEState * list (list (list V)).

(** The reconstruction keeps the four scalars and replaces both handles
    by fresh ones. *)
Lemma reconstruct_fresh (me : MEHandler MEState) :
  reconstruct ME me =
    MEHandler_init ME (me_H me) (me_W me) (loss_metric me) (runs_to_warm_up me).
Proof. reflexivity. Qed.

End ReconstructFacts.

(** ** The manifest *)

Section ManifestFacts.
Lemma read_csv_labelled (rows : list Row) : read_csv rows = labelled 0 rows.
Proof. reflexivity. Qed.

Lemma labelled_length (a : nat) (rows : list Row) :
  length (labelled a rows) = length rows.
Proof.
  unfold labelled. rewrite length_combine, length_map, length_seq. lia.
Qed.

Lemma labelled_rows (a : nat) (rows : list Row) :
  map snd (labelled a rows) = rows.
Proof.
  unfold labelled. revert a. induction rows as [|r rows IH]; intros a.
  - reflexivity.
  - cbn. f_equal. apply IH.
Qed.

Lemma firstn_labelled (k a : nat) (rows : list Row) :
  firstn k (labelled a rows) = labelled a (firstn k rows).
Proof.
  unfold labelled. revert k a. induction rows as [|r rows IH]; intros k a.
  - destruct k; reflexivity.
  - destruct k as [|k]; [reflexivity|].
    cbn. f_equal. apply IH.
Qed.

Lemma series_getitem_labelled (rows : list Row) (dflt : Row) :
  forall (a i : nat),
    (i < length rows)%nat ->
    series_getitem (iloc_col0 (labelled a rows)) (Z.of_nat (a + i)) =
      Ok (img_name (nth i rows dflt)).
Proof.
  unfold labelled, iloc_col0.
  induction rows as [|r rows IH]; intros a i Hi; [cbn in Hi; lia|].
  cbn [length seq map combine series_getitem fst snd].
  destruct i as [|i].
  - rewrite Nat.add_0_r, Z.eqb_refl. reflexivity.
  - destruct (Z.eqb_spec (Z.of_nat a) (Z.of_nat (a + S i))) as [E|_]; [lia|].
    replace (a + S i)%nat with (S a + i)%nat by lia.
    cbn [nth]. apply IH. cbn in Hi. lia.
Qed.
End ManifestFacts.

Section DatasetFacts.
Context {F : Type} `{PyFloat F} {MEState : Type}.
Variable ME : Z -> Z -> string -> MEState.

Lemma SynthDatasetME_init_train_data (manifest : list Row) (path : string)
    (h w : Z) (crop : F) (gm : string) (d : Z) (ds : SynthDatasetME F MEState) :
  SynthDatasetME_init ME manifest path h w crop gm d = Ok ds ->
  train_data ds =
    (if negb (d =? 0)
     then iloc_rows 0 (Z.min d (Z.of_nat (length (read_csv manifest)))) (read_csv manifest)
     else read_csv manifest) /\
  img_names ds = iloc_col0 (train_data ds) /\
  dataset_size ds = d.
Proof.
  unfold SynthDatasetME_init.
  destruct (me_dim h crop) as [mh|e]; [|discriminate].
  destruct (me_dim w crop) as [mw|e]; [|discriminate].
  cbn [bind]. intros [= <-]. cbn. auto.
Qed.

(** Whether construction succeeds does not depend on [dataset_size]. *)
Lemma SynthDatasetME_init_any_size (manifest : list Row) (path : string)
    (h w : Z) (crop : F) (gm : string) (d d' : Z) :
  succeeds (SynthDatasetME_init ME manifest path h w crop gm d) ->
  succeeds (SynthDatasetME_init ME manifest path h w crop gm d').
Proof.
  unfold succeeds, SynthDatasetME_init.
  destruct (me_dim h crop) as [mh|e]; [|intros [a Ha]; discriminate].
  destruct (me_dim w crop) as [mw|e]; [|intros [a Ha]; discriminate].
  cbn [bind]. intros _. eexists. reflexivity.
Qed.

(** C9 (dataset size cap), for a positive [dataset_size].  For every
    manifest of [n] rows and every [d > 0], the constructed dataset has
    length [min(d, n)], its rows are the first [min(d, n)] rows of the
    manifest in manifest order, and looking up the index [i] with
    [0 <= i < min(d, n)] returns the image file name of manifest row
    [i]. *)
Theorem dataset_size_positive_cap (manifest : list Row) (path : string)
    (h w : Z) (crop : F) (gm : string) (d : Z) (ds : SynthDatasetME F MEState)
    (dflt : Row) :
  0 < d ->
  SynthDatasetME_init ME manifest path h w crop gm d = Ok ds ->
  let n := Z.of_nat (length manifest) in
  SynthDatasetME_len ds = Z.min d n /\
  map snd (train_data ds) = firstn (Z.to_nat (Z.min d n)) manifest /\
  forall i : Z,
    0 <= i < Z.min d n ->
    SynthDatasetME_img_name ds i = Ok (img_name (nth (Z.to_nat i) manifest dflt)).
Proof.
  intros Hd Hinit n.
  destruct (SynthDatasetME_init_train_data _ _ _ _ _ _ _ _ Hinit) as [Ht [Hn _]].
  destruct (Z.eqb_spec d 0) as [|_]; [lia|]. cbn [negb] in Ht.
  rewrite read_csv_labelled, labelled_length in Ht. fold n in Ht.
  unfold iloc_rows in Ht. rewrite py_slice_prefix in Ht by lia.
  rewrite firstn_labelled in Ht.
  unfold SynthDatasetME_len, SynthDatasetME_img_name. rewrite Hn, Ht.
  split; [|split].
  - rewrite labelled_length, length_firstn. subst n. lia.
  - apply labelled_rows.
  - intros i Hi.
    replace i with (Z.of_nat (0 + Z.to_nat i)) at 1 by lia.
    rewrite (series_getitem_labelled _ dflt).
    + do 2 f_equal. rewrite nth_firstn.
      destruct (Nat.ltb_spec (Z.to_nat i) (Z.to_nat (Z.min d n))); [reflexivity|lia].
    + rewrite length_firstn. subst n. lia.
Qed.

(** C10 (negative dataset size).  For every manifest of [n] rows and
    every [d < 0], construction with [dataset_size = d] succeeds whenever
    it does with [dataset_size = 0]; the slice bound is [min(d, n) = d],
    the rows kept are the manifest without its last [|d|] rows, and the
    length is [max(n + d, 0)]. *)
Theorem dataset_size_negative_drops_last (manifest : list Row) (path : string)
    (h w : Z) (crop : F) (gm : string) (d : Z) :
  d < 0 ->
  succeeds (SynthDatasetME_init ME manifest path h w crop gm 0) ->
  let n := Z.of_nat (length manifest) in
  exists ds,
    SynthDatasetME_init ME manifest path h w crop gm d = Ok ds /\
    Z.min d n = d /\
    map snd (train_data ds) = firstn (Z.to_nat (n + d)) manifest /\
    SynthDatasetME_len ds = Z.max (n + d) 0.
Proof.
  intros Hd Hok n.
  destruct (SynthDatasetME_init_any_size _ _ _ _ _ _ 0 d Hok) as [ds Hinit].
  exists ds. split; [exact Hinit|].
  destruct (SynthDatasetME_init_train_data _ _ _ _ _ _ _ _ Hinit) as [Ht _].
  destruct (Z.eqb_spec d 0) as [|_]; [lia|]. cbn [negb] in Ht.
  rewrite read_csv_labelled, labelled_length in Ht. fold n in Ht.
  assert (Hmin : Z.min d n = d) by (subst n; lia).
  rewrite Hmin in Ht.
  unfold iloc_rows in Ht. rewrite py_slice_drop_last in Ht by lia.
  rewrite labelled_length, firstn_labelled in Ht. fold n in Ht.
  unfold SynthDatasetME_len. rewrite Ht.
  split; [exact Hmin|]. split.
  - apply labelled_rows.
  - rewrite labelled_length, length_firstn. subst n. lia.
Qed.
End DatasetFacts.

(** ** Closed instances *)

Lemma warmed_up_me_invocations_witness :
  warmed_up_me (logged counting_estimator)
    (Build_MEHandler 16 16 "colorindependent" 3 (O, []) (O, [])) (O, []) 7 3 =
    ((3%nat, [(7, 3); (7, 3); (7, 3)]), [[[3]]]) /\
  warmed_up_me (logged counting_estimator)
    (Build_MEHandler 16 16 "colorindependent" 1 (O, []) (O, [])) (O, []) 7 3 =
    ((1%nat, [(7, 3)]), [[[1]]]).
Proof.
  split.
  - apply (warmed_up_me_invocations counting_estimator
             (Build_MEHandler 16 16 "colorindependent" 3 (O, []) (O, [])) O [] 7 3 3);
      [reflexivity|lia].
  - apply (warmed_up_me_invocations counting_estimator
             (Build_MEHandler 16 16 "colorindependent" 1 (O, []) (O, [])) O [] 7 3 1);
      [reflexivity|lia].
Defined.

Lemma calculate_disparity_fields_witness :
  let self := MEHandler_init (fun W H l => (settling_ME W H l, @nil (Z * Z)))
                16 16 "colorindependent" 2 in
  let l2r := snd (warmed_up_me (logged settling_estimator) self (L2R_ME self) 7 3) in
  let r2l := snd (warmed_up_me (logged settling_estimator) self (R2L_ME self) 3 7) in
  let res := calculate_disparity (logged settling_estimator) self 7 3 in
  snd (L2R_ME (fst res)) = [(7, 3); (7, 3)] /\
  snd (R2L_ME (fst res)) = [(3, 7); (3, 7)] /\
  has_shape 2 4 4 (fst (snd res)) /\
  has_shape 2 4 4 (snd (snd res)) /\
  (forall (c i j : nat) (d : Z),
      nth j (nth i (nth c (fst (snd res)) []) []) d =
        nth (4 * j) (nth (4 * i) (nth c l2r []) []) d) /\
  (forall (c i j : nat) (d : Z),
      nth j (nth i (nth c (snd (snd res)) []) []) d =
        nth (4 * j) (nth (4 * i) (nth c r2l []) []) d).
Proof.
  apply (calculate_disparity_fields settling_estimator
           (MEHandler_init (fun W H l => (settling_ME W H l, @nil (Z * Z)))
              16 16 "colorindependent" 2) 7 3 16 16).
  - exists 1%nat. reflexivity.
  - exists 1%nat. reflexivity.
  - vm_compute. split; [reflexivity|repeat constructor].
  - vm_compute. split; [reflexivity|repeat constructor].
Defined.

Lemma dataset_size_positive_cap_witness :
  exists ds,
    SynthDatasetME_init settling_ME ten_rows "images" 256 256 (B64.lit 2 10)
      "affine_simple_4" 5 = Ok ds /\
    SynthDatasetME_len ds = 5 /\
    map snd (train_data ds) = firstn 5 ten_rows /\
    forall i : Z,
      0 <= i < 5 ->
      SynthDatasetME_img_name ds i =
        Ok (img_name (nth (Z.to_nat i) ten_rows (Build_Row "none" []))).
Proof.
  eexists. split; [vm_compute; reflexivity|].
  apply (dataset_size_positive_cap settling_ME ten_rows "images" 256 256 (B64.lit 2 10)
           "affine_simple_4" 5 _ (Build_Row "none" [])).
  - lia.
  - vm_compute. reflexivity.
Defined.

(** C9 as stated fails for a negative size: with ten rows and
    [dataset_size = -3] the length is 7, not [min(-3, 10)]. *)
Lemma dataset_size_negative_counterexample :
  exists ds,
    SynthDatasetME_init settling_ME ten_rows "images" 256 256 (B64.lit 2 10)
      "affine_simple_4" (-3) = Ok ds /\
    SynthDatasetME_len ds = 7 /\
    SynthDatasetME_len ds <> Z.min (-3) (Z.of_nat (length ten_rows)).
Proof.
  eexists. split; [vm_compute; reflexivity|].
  split; [reflexivity|]. vm_compute. discriminate.
Qed.

Lemma dataset_size_negative_drops_last_witness :
  (exists ds,
     SynthDatasetME_init settling_ME ten_rows "images" 256 256 (B64.lit 2 10)
       "affine_simple_4" (-3) = Ok ds /\
     Z.min (-3) 10 = -3 /\
     map snd (train_data ds) = firstn 7 ten_rows /\
     SynthDatasetME_len ds = 7) /\
  (exists ds,
     SynthDatasetME_init settling_ME ten_rows "images" 256 256 (B64.lit 2 10)
       "affine_simple_4" (-12) = Ok ds /\
     Z.min (-12) 10 = -12 /\
     map snd (train_data ds) = [] /\
     SynthDatasetME_len ds = 0).
Proof.
  split.
  - apply (dataset_size_negative_drops_last settling_ME ten_rows "images" 256 256
             (B64.lit 2 10) "affine_simple_4" (-3)); [lia|].
    eexists. vm_compute. reflexivity.
  - apply (dataset_size_negative_drops_last settling_ME ten_rows "images" 256 256
             (B64.lit 2 10) "affine_simple_4" (-12)); [lia|].
    eexists. vm_compute. reflexivity.
Defined.


(** * Further properties of the pipeline *)

(** ** Warper: model tag, offsets, cropping and warping *)

Lemma Warper_init_unsupported_model_any
    {F : Type} `{PyFloat F} (getRotationMatrix2D : Z * Z -> F -> F -> mat23 F)
    (H W : Z) (geometric_model : string) (crop : F) (d : Draws F) :
  geometric_model <> "affine_simple_4"%string ->
  geometric_model <> "affine_simple"%string ->
  Warper_init getRotationMatrix2D H W geometric_model crop d =
    Raise (NotImplementedError "Specified geometric model is unsupported").
Proof.
  intros H4 H3. unfold Warper_init.
  rewrite (proj2 (String.eqb_neq _ _) H4), (proj2 (String.eqb_neq _ _) H3).
  reflexivity.
Qed.

(** X1.  Any tag other than ['affine_simple_4'] and ['affine_simple'] is
    rejected with [NotImplementedError] before anything else is computed:
    neither the sizes, nor the crop fraction, nor the draws matter. *)
Theorem Warper_init_unsupported_model
    {F : Type} `{PyFloat F} (getRotationMatrix2D : Z * Z -> F -> F -> mat23 F)
    (H W : Z) (geometric_model : string) (crop : F) (d : Draws F) :
  geometric_model <> "affine_simple_4"%string ->
  geometric_model <> "affine_simple"%string ->
  Warper_init getRotationMatrix2D H W geometric_model crop d =
    Raise (NotImplementedError "Specified geometric model is unsupported").
Proof. apply Warper_init_unsupported_model_any. Qed.

Lemma Warper_init_unsupported_model_witness :
  Warper_init rotation_at_angle_0 256 256 "affine" (B64.lit 2 10) draws_identity =
    Raise (NotImplementedError "Specified geometric model is unsupported").
Proof.
  apply (Warper_init_unsupported_model rotation_at_angle_0 256 256 "affine"
           (B64.lit 2 10) draws_identity); discriminate.
Defined.

(** X2.  In every float instance, the two offsets removed along an axis
    add up to [int(n * crop)] rounded down to an even number: when
    [crop_offset] returns [k], the truncated product [t] satisfies
    [2*k <= t <= 2*k + 1]. *)
Theorem crop_offset_halves_truncation
    {F : Type} `{PyFloat F} (n k : Z) (crop : F) :
  crop_offset n crop = Ok k ->
  exists fn t,
    f_of_int n = Ok fn /\ f_int (f_mul fn crop) = Ok t /\
    2 * k <= t <= 2 * k + 1.
Proof.
  unfold crop_offset.
  destruct (f_of_int n) as [fn|e] eqn:En; [|discriminate]. cbn [bind].
  destruct (f_int (f_mul fn crop)) as [t|e] eqn:Et; [|discriminate]. cbn [bind].
  intros [= <-]. exists fn, t. split; [reflexivity|]. split; [exact Et|].
  pose proof (Z.div_mod t 2 ltac:(lia)) as Hd.
  pose proof (Z.mod_pos_bound t 2 ltac:(lia)) as Hm. lia.
Qed.

Lemma crop_offset_halves_truncation_witness :
  exists fn t,
    f_of_int (F:=B64.t) 256 = Ok fn /\ f_int (f_mul fn (B64.lit 2 10)) = Ok t /\
    2 * 25 <= t <= 2 * 25 + 1.
Proof.
  apply (crop_offset_halves_truncation (F:=B64.t) 256 25 (B64.lit 2 10)).
  vm_compute. reflexivity.
Defined.

(** ** Offsets in double precision *)

Lemma binary_round_aux_cases (prec emax : Z) (sx : bool) (mx ex : Z) (lx : location) :
  binary_round_aux prec emax sx mx ex lx = S754_zero sx \/
  (exists m e, binary_round_aux prec emax sx mx ex lx = S754_finite sx m e) \/
  binary_round_aux prec emax sx mx ex lx = S754_infinity sx \/
  binary_round_aux prec emax sx mx ex lx = S754_nan.
Proof.
  unfold binary_round_aux.
  destruct (shr_fexp prec emax mx ex lx) as [mrs' e'].
  destruct (shr_fexp prec emax _ e' loc_Exact) as [mrs'' e''].
  destruct (shr_m mrs'') as [|m|m].
  - left. reflexivity.
  - destruct (e'' <=? emax - prec).
    + right. left. exists m, e''. reflexivity.
    + right. right. left. reflexivity.
  - right. right. right. reflexivity.
Qed.

Lemma to_int_mul_nonnegative (x y : B64.t) (t : Z) :
  SFltb x (S754_zero false) = false ->
  SFltb y (S754_zero false) = false ->
  B64.to_int (B64.mul x y) = Ok t -> 0 <= t.
Proof.
  intros Hx Hy.
  destruct x as [sx|sx| |sx mx ex]; destruct y as [sy|sy| |sy my ey];
    cbn [B64.mul SFmul B64.to_int]; try discriminate;
    try (intros [= <-]; lia).
  destruct sx; [discriminate Hx|]. destruct sy; [discriminate Hy|].
  cbn [xorb].
  destruct (binary_round_aux_cases B64.prec B64.emax false
              (Zpos (mx * my)) (ex + ey) loc_Exact) as [E|[[m [e E]]|[E|E]]];
    rewrite E; cbn [B64.to_int]; try discriminate.
  - intros [= <-]. lia.
  - intros [= <-]. cbn [cond_Zopp]. apply Z.shiftl_nonneg. lia.
Qed.

Lemma of_int_nonnegative (n : Z) (fn : B64.t) :
  0 <= n -> B64.of_int n = Ok fn -> SFltb fn (S754_zero false) = false.
Proof.
  intros Hn. unfold B64.of_int, B64.of_Z, binary_normalize.
  destruct n as [|p|p]; [intros [= <-]; reflexivity| |lia].
  unfold binary_round.
  destruct (shl_align p 0 _) as [mz ez].
  destruct (binary_round_aux_cases B64.prec B64.emax false (Zpos mz) ez loc_Exact)
    as [E|[[m [e E]]|[E|E]]]; rewrite E; try discriminate;
    intros [= <-]; reflexivity.
Qed.

(** X3.  In double precision, for a size [n >= 0] and a crop fraction that
    is not below zero, a crop offset is never negative: whenever
    [int(n * crop) // 2] is computed, it is at least 0. *)
Theorem crop_offset_never_negative (n k : Z) (crop : B64.t) :
  0 <= n ->
  SFltb crop (S754_zero false) = false ->
  crop_offset n crop = Ok k ->
  0 <= k.
Proof.
  intros Hn Hc. unfold crop_offset. cbn [f_of_int f_int f_mul binary64].
  destruct (B64.of_int n) as [fn|e] eqn:En; [|discriminate]. cbn [bind].
  destruct (B64.to_int (B64.mul fn crop)) as [t|e] eqn:Et; [|discriminate].
  cbn [bind]. intros [= <-].
  apply Z.div_pos; [|lia].
  apply (to_int_mul_nonnegative fn crop t); [|exact Hc|exact Et].
  apply (of_int_nonnegative n fn Hn En).
Qed.

Lemma crop_offset_never_negative_witness :
  crop_offset 256 (B64.lit 2 10) = Ok 25 /\ 0 <= 25.
Proof.
  split; [vm_compute; reflexivity|].
  apply (crop_offset_never_negative 256 25 (B64.lit 2 10)).
  - lia.
  - vm_compute. reflexivity.
  - vm_compute. reflexivity.
Defined.

Lemma py_slice_border_length_any {A : Type} (a : Z) (l : list A) :
  0 < a ->
  Z.of_nat (length (py_slice a (- a) l)) = Z.max 0 (Z.of_nat (length l) - 2 * a).
Proof.
  intros Ha. unfold py_slice, clamp_index.
  destruct (Z.ltb_spec a 0); [lia|].
  destruct (Z.ltb_spec (- a) 0); [|lia].
  rewrite length_firstn, length_skipn. lia.
Qed.

(** X4.  With positive offsets that fit into the image, [crop] returns the
    inner window: [H - 2*H_off] rows of [W - 2*W_off] pixels, the pixel at
    [(i, j)] of the result being the pixel at [(i + H_off, j + W_off)] of
    the image. *)
Theorem crop_keeps_inner_window {F pixel : Type} (w : Warper F)
    (img : list (list pixel)) (Wn : Z) :
  0 < H_off w -> 0 < W_off w ->
  2 * H_off w <= Z.of_nat (length img) ->
  2 * W_off w <= Wn ->
  Forall (fun row => Z.of_nat (length row) = Wn) img ->
  Z.of_nat (length (crop w img)) = Z.of_nat (length img) - 2 * H_off w /\
  Forall (fun row => Z.of_nat (length row) = Wn - 2 * W_off w) (crop w img) /\
  forall (i j : nat) (d : pixel),
    Z.of_nat i < Z.of_nat (length img) - 2 * H_off w ->
    Z.of_nat j < Wn - 2 * W_off w ->
    nth j (nth i (crop w img) []) d =
      nth (Z.to_nat (W_off w) + j) (nth (Z.to_nat (H_off w) + i) img []) d.
Proof. apply crop_removes_border. Qed.

Lemma crop_keeps_inner_window_witness :
  let w := Build_Warper (F:=B64.t) (Some true) None 4 6 1 2
             (Build_mat23 (B64.lit 1 1) (B64.lit 0 1) (B64.lit 0 1)
                          (B64.lit 0 1) (B64.lit 1 1) (B64.lit 0 1)) [] in
  Z.of_nat (length (crop w (coords 4 6))) = Z.of_nat (length (coords 4 6)) - 2 * 1 /\
  Forall (fun row => Z.of_nat (length row) = 6 - 2 * 2) (crop w (coords 4 6)) /\
  forall (i j : nat) (d : nat * nat),
    Z.of_nat i < Z.of_nat (length (coords 4 6)) - 2 * 1 ->
    Z.of_nat j < 6 - 2 * 2 ->
    nth j (nth i (crop w (coords 4 6)) []) d =
      nth (Z.to_nat 2 + j) (nth (Z.to_nat 1 + i) (coords 4 6) []) d.
Proof.
  apply (crop_keeps_inner_window
           (Build_Warper (F:=B64.t) (Some true) None 4 6 1 2
              (Build_mat23 (B64.lit 1 1) (B64.lit 0 1) (B64.lit 0 1)
                           (B64.lit 0 1) (B64.lit 1 1) (B64.lit 0 1)) [])
           (coords 4 6) 6).
  - reflexivity.
  - reflexivity.
  - vm_compute; discriminate.
  - vm_compute; discriminate.
  - vm_compute. repeat constructor.
Defined.

(** X5.  [crop] never fails, and with positive offsets its result has
    [max(0, H - 2*H_off)] rows, each of [max(0, W - 2*W_off)] pixels: offsets
    that do not fit give an empty result, not an error. *)
Theorem crop_size_any_positive_offset {F pixel : Type} (w : Warper F)
    (img : list (list pixel)) (Wn : Z) :
  0 < H_off w -> 0 < W_off w ->
  Forall (fun row => Z.of_nat (length row) = Wn) img ->
  Z.of_nat (length (crop w img)) = Z.max 0 (Z.of_nat (length img) - 2 * H_off w) /\
  Forall (fun row => Z.of_nat (length row) = Z.max 0 (Wn - 2 * W_off w)) (crop w img).
Proof.
  intros Hh Hw Hrows. unfold crop. split.
  - rewrite length_map. apply py_slice_border_length_any. exact Hh.
  - apply Forall_map, Forall_forall. intros row Hin.
    rewrite py_slice_border_length_any by exact Hw.
    unfold py_slice in Hin. apply in_firstn_skipn in Hin.
    rewrite (proj1 (Forall_forall _ _) Hrows row Hin). reflexivity.
Qed.

Lemma crop_size_any_positive_offset_witness :
  let w := Build_Warper (F:=B64.t) (Some true) None 4 6 3 2
             (Build_mat23 (B64.lit 1 1) (B64.lit 0 1) (B64.lit 0 1)
                          (B64.lit 0 1) (B64.lit 1 1) (B64.lit 0 1)) [] in
  Z.of_nat (length (crop w (coords 4 6))) =
    Z.max 0 (Z.of_nat (length (coords 4 6)) - 2 * 3) /\
  Forall (fun row => Z.of_nat (length row) = Z.max 0 (6 - 2 * 2)) (crop w (coords 4 6)).
Proof.
  apply (crop_size_any_positive_offset
           (Build_Warper (F:=B64.t) (Some true) None 4 6 3 2
              (Build_mat23 (B64.lit 1 1) (B64.lit 0 1) (B64.lit 0 1)
                           (B64.lit 0 1) (B64.lit 1 1) (B64.lit 0 1)) [])
           (coords 4 6) 6).
  - reflexivity.
  - reflexivity.
  - vm_compute. repeat constructor.
Defined.

(** X6.  [warp] returns the cropped source and the cropped resampled copy.
    When the source is an [H] x [W] image, the positive offsets fit, and
    the resampling primitive returns an image of the requested size
    [(W, H)], both returned images have [H - 2*H_off] rows of
    [W - 2*W_off] pixels, and the first one is the inner window of the
    source, untouched by the transform. *)
Theorem warp_returns_equal_sized_pair {F pixel : Type}
    (warpAffine : list (list pixel) -> mat23 F -> Z * Z -> list (list pixel))
    (w : Warper F) (img_L img_R : list (list pixel)) :
  0 < H_off w -> 0 < W_off w ->
  2 * H_off w <= H w -> 2 * W_off w <= W w ->
  Z.of_nat (length img_L) = H w ->
  Forall (fun row => Z.of_nat (length row) = W w) img_L ->
  Z.of_nat (length (warpAffine img_R (mat w) (W w, H w))) = H w ->
  Forall (fun row => Z.of_nat (length row) = W w) (warpAffine img_R (mat w) (W w, H w)) ->
  let res := warp warpAffine w img_L img_R in
  Z.of_nat (length (fst res)) = H w - 2 * H_off w /\
  Z.of_nat (length (snd res)) = H w - 2 * H_off w /\
  Forall (fun row => Z.of_nat (length row) = W w - 2 * W_off w) (fst res) /\
  Forall (fun row => Z.of_nat (length row) = W w - 2 * W_off w) (snd res) /\
  forall (i j : nat) (d : pixel),
    Z.of_nat i < H w - 2 * H_off w ->
    Z.of_nat j < W w - 2 * W_off w ->
    nth j (nth i (fst res) []) d =
      nth (Z.to_nat (W_off w) + j) (nth (Z.to_nat (H_off w) + i) img_L []) d.
Proof.
  intros Hh Hw HfitH HfitW HL HLrows HR HRrows res. subst res. unfold warp.
  cbn [fst snd].
  destruct (crop_removes_border w img_L (W w) Hh Hw ltac:(lia) HfitW HLrows)
    as [L1 [L2 L3]].
  destruct (crop_removes_border w (warpAffine img_R (mat w) (W w, H w)) (W w)
              Hh Hw ltac:(lia) HfitW HRrows) as [R1 [R2 _]].
  split; [lia|]. split; [lia|]. split; [exact L2|]. split; [exact R2|].
  intros i j d Hi Hj. apply L3; lia.
Qed.

Lemma warp_returns_equal_sized_pair_witness :
  let w := Build_Warper (F:=B64.t) (Some true) None 4 6 1 2
             (Build_mat23 (B64.lit 1 1) (B64.lit 0 1) (B64.lit 0 1)
                          (B64.lit 0 1) (B64.lit 1 1) (B64.lit 0 1)) [] in
  let shift_right := fun (img : list (list (nat * nat))) (m : mat23 B64.t) (dsize : Z * Z) =>
                       map (fun row => (0%nat, 0%nat) :: removelast row) img in
  let res := warp shift_right w (coords 4 6) (coords 4 6) in
  Z.of_nat (length (fst res)) = 4 - 2 * 1 /\
  Z.of_nat (length (snd res)) = 4 - 2 * 1 /\
  Forall (fun row => Z.of_nat (length row) = 6 - 2 * 2) (fst res) /\
  Forall (fun row => Z.of_nat (length row) = 6 - 2 * 2) (snd res) /\
  forall (i j : nat) (d : nat * nat),
    Z.of_nat i < 4 - 2 * 1 ->
    Z.of_nat j < 6 - 2 * 2 ->
    nth j (nth i (fst res) []) d =
      nth (Z.to_nat 2 + j) (nth (Z.to_nat 1 + i) (coords 4 6) []) d.
Proof.
  apply (warp_returns_equal_sized_pair
           (fun (img : list (list (nat * nat))) (m : mat23 B64.t) (dsize : Z * Z) =>
              map (fun row => (0%nat, 0%nat) :: removelast row) img)
           (Build_Warper (F:=B64.t) (Some true) None 4 6 1 2
              (Build_mat23 (B64.lit 1 1) (B64.lit 0 1) (B64.lit 0 1)
                           (B64.lit 0 1) (B64.lit 1 1) (B64.lit 0 1)) [])
           (coords 4 6) (coords 4 6)).
  - reflexivity.
  - reflexivity.
  - vm_compute; discriminate.
  - vm_compute; discriminate.
  - reflexivity.
  - vm_compute. repeat constructor.
  - reflexivity.
  - vm_compute. repeat constructor.
Defined.

(** ** Adapter size against cropped size *)

(** ** Warper: the general branch *)

(** ** The adapter over its lifetime *)

Section AdapterLifetime.
Context {image V MEState : Type}.
Variable ME : Z -> Z -> string -> MEState.
Variable EstimateME : MEState -> image -> image -> MEState * list (list (list V)).

(** X10.  A warm-up count of 1 or less, zero and negative counts included,
    makes [warmed_up_me] invoke the estimator exactly once ([range] of a
    non-positive number is empty) and return the output of that first
    invocation. *)
Theorem warmed_up_me_at_most_one_run
    (self : MEHandler (MEState * list (image * image)))
    (s : MEState) (log : list (image * image)) (cur ref : image) :
  runs_to_warm_up self <= 1 ->
  warmed_up_me (logged EstimateME) self (s, log) cur ref =
    ((fst (EstimateME s cur ref), log ++ [(cur, ref)]), snd (EstimateME s cur ref)).
Proof.
  intros Hn.
  pose proof (warmed_up_me_logged EstimateME self s log cur ref) as Hw.
  cbv zeta in Hw.
  replace (Z.to_nat (runs_to_warm_up self - 1)) with O in Hw by lia.
  exact Hw.
Qed.

Lemma calculate_disparity_scalars (me : MEHandler MEState) (img_l img_r : image) :
  let me' := fst (calculate_disparity EstimateME me img_l img_r) in
  me_H me' = me_H me /\ me_W me' = me_W me /\
  loss_metric me' = loss_metric me /\ runs_to_warm_up me' = runs_to_warm_up me.
Proof.
  unfold calculate_disparity.
  destruct (warmed_up_me EstimateME me (L2R_ME me) img_l img_r) as [s1 o1].
  destruct (warmed_up_me EstimateME me (R2L_ME me) img_r img_l) as [s2 o2].
  cbn. auto.
Qed.

Lemma run_disparities_scalars (pairs : list (image * image)) :
  forall me : MEHandler MEState,
    let me' := run_disparities EstimateME me pairs in
    me_H me' = me_H me /\ me_W me' = me_W me /\
    loss_metric me' = loss_metric me /\ runs_to_warm_up me' = runs_to_warm_up me.
Proof.
  induction pairs as [|[l r] rest IH]; intros me; [cbn; auto|].
  cbn [run_disparities].
  destruct (IH (fst (calculate_disparity EstimateME me l r))) as [A [B [C D]]].
  destruct (calculate_disparity_scalars me l r) as [A' [B' [C' D']]].
  cbv zeta in *. repeat split; congruence.
Qed.

(** X11.  Pickling round trip over the adapter's lifetime: an adapter
    constructed as [MEHandler(H, W, loss_metric, runs)] and then used for
    any sequence of disparity computations is rebuilt by the pickling hook
    as exactly the adapter the constructor returned: the four scalars
    survive every use, and both estimator handles are fresh again. *)
Theorem reconstruct_after_any_use (H W : Z) (l : string) (r : Z)
    (pairs : list (image * image)) :
  reconstruct ME (run_disparities EstimateME (MEHandler_init ME H W l r) pairs) =
    MEHandler_init ME H W l r.
Proof.
  rewrite reconstruct_fresh.
  destruct (run_disparities_scalars pairs (MEHandler_init ME H W l r)) as [A [B [C D]]].
  cbv zeta in *. rewrite A, B, C, D. reflexivity.
Qed.




End AdapterLifetime.



Lemma warmed_up_me_at_most_one_run_witness :
  warmed_up_me (logged counting_estimator)
    (Build_MEHandler 16 16 "colorindependent" 0 (O, []) (O, [])) (O, []) 7 3 =
    ((1%nat, [(7, 3)]), [[[1]]]) /\
  warmed_up_me (logged counting_estimator)
    (Build_MEHandler 16 16 "colorindependent" (-5) (O, []) (O, [])) (O, []) 7 3 =
    ((1%nat, [(7, 3)]), [[[1]]]).
Proof.
  split.
  - apply (warmed_up_me_at_most_one_run counting_estimator
             (Build_MEHandler 16 16 "colorindependent" 0 (O, []) (O, [])) O [] 7 3).
    cbn. lia.
  - apply (warmed_up_me_at_most_one_run counting_estimator
             (Build_MEHandler 16 16 "colorindependent" (-5) (O, []) (O, [])) O [] 7 3).
    cbn. lia.
Defined.

(** X12.  Over any sequence of disparity computations, the handle
    [L2R_ME] is only ever invoked on (left, right) pairs and the handle
    [R2L_ME] only on (right, left) pairs, each served pair contributing
    the same number [k] of consecutive invocations to each handle, in the
    order the pairs were served; [k] is the warm-up count, or 1 when that
    count is below 1. *)
Theorem run_disparities_logs {image V MEState : Type}
    (EstimateME : MEState -> image -> image -> MEState * list (list (list V)))
    (pairs : list (image * image)) :
  forall me : MEHandler (MEState * list (image * image)),
    let k := S (Z.to_nat (runs_to_warm_up me - 1)) in
    let me' := run_disparities (logged EstimateME) me pairs in
    snd (L2R_ME me') =
      snd (L2R_ME me) ++ flat_map (fun p => repeat (fst p, snd p) k) pairs /\
    snd (R2L_ME me') =
      snd (R2L_ME me) ++ flat_map (fun p => repeat (snd p, fst p) k) pairs.
Proof.
  induction pairs as [|[l r] rest IH]; intros me k me'.
  - cbn. rewrite !app_nil_r. auto.
  - subst me'. cbn [run_disparities flat_map fst snd].
    pose proof (IH (fst (calculate_disparity (logged EstimateME) me l r))) as IH'.
    cbv zeta in IH'.
    destruct (calculate_disparity_scalars (logged EstimateME) me l r)
      as [_ [_ [_ D]]].
    cbv zeta in D. rewrite D in IH'. fold k in IH'.
    destruct IH' as [I1 I2]. rewrite I1, I2.
    unfold calculate_disparity.
    destruct (L2R_ME me) as [sl logl] eqn:El.
    destruct (R2L_ME me) as [sr logr] eqn:Er.
    pose proof (warmed_up_me_logged EstimateME me sl logl l r) as H1.
    pose proof (warmed_up_me_logged EstimateME me sr logr r l) as H2.
    cbv zeta in H1, H2. fold k in H1, H2. rewrite H1, H2.
    cbn [fst snd L2R_ME R2L_ME]. rewrite <- !app_assoc. auto.
Qed.

(** X13.  Subsampling a field of any shape [(c, h, w)] gives the shape
    [(c, ceil(h/4), ceil(w/4))]: a height or width that is not a multiple
    of 4 is rounded up, the last kept row or column being the one at the
    largest multiple of 4 below it. *)
Theorem subsample4_shape_any {V : Type} (a : list (list (list V))) (c h w : nat) :
  has_shape c h w a ->
  has_shape c ((h + 3) / 4) ((w + 3) / 4) (subsample4 a).
Proof.
  intros [Hc Hrows]. unfold subsample4. split.
  - rewrite length_map. exact Hc.
  - apply Forall_map. revert Hrows. apply Forall_impl.
    intros ch [Hlen Hch]. split.
    + rewrite length_map, py_stride4_length, Hlen. reflexivity.
    + apply Forall_map. apply Forall_forall. intros row Hin.
      rewrite py_stride4_length.
      rewrite (proj1 (Forall_forall _ _) Hch row (py_stride_In _ _ _ Hin)).
      reflexivity.
Qed.

Lemma subsample4_shape_any_witness :
  has_shape 2 ((6 + 3) / 4) ((5 + 3) / 4)
    (subsample4 (repeat (repeat (repeat 0 5) 6) 2)).
Proof.
  apply (subsample4_shape_any (repeat (repeat (repeat 0 5) 6) 2) 2 6 5).
  vm_compute. split; [reflexivity|repeat constructor].
Defined.

(** ** The dataset: index access *)

Lemma series_getitem_labelled_miss (rows : list Row) :
  forall (a : nat) (idx : Z),
    idx < Z.of_nat a \/ Z.of_nat (a + length rows) <= idx ->
    series_getitem (iloc_col0 (labelled a rows)) idx = Raise (KeyError idx).
Proof.
  unfold labelled, iloc_col0.
  induction rows as [|r rows IH]; intros a idx Hidx; [reflexivity|].
  cbn [length seq map combine series_getitem fst snd].
  destruct (Z.eqb_spec (Z.of_nat a) idx) as [E|_]; [cbn [length] in Hidx; lia|].
  apply IH. cbn [length] in Hidx. lia.
Qed.

Lemma Warper_init_ok_tag {F : Type} `{PyFloat F}
    (getRotationMatrix2D : Z * Z -> F -> F -> mat23 F)
    (H W : Z) (geometric_model : string) (crop : F) (d : Draws F) (w : Warper F) :
  Warper_init getRotationMatrix2D H W geometric_model crop d = Ok w ->
  geometric_model = "affine_simple_4"%string.
Proof.
  intros Hok.
  destruct (String.eqb_spec geometric_model "affine_simple_4") as [E|N4]; [exact E|].
  destruct (String.eqb_spec geometric_model "affine_simple") as [E|N3].
  - subst geometric_model.
    pose proof (Warper_init_affine_simple getRotationMatrix2D H W crop d) as Hs.
    destruct (Warper_init getRotationMatrix2D H W "affine_simple_4" crop d);
      rewrite Hs in Hok; discriminate.
  - rewrite (Warper_init_unsupported_model_any getRotationMatrix2D H W _ crop d N4 N3)
      in Hok. discriminate.
Qed.

Section DatasetAccess.
Context {F : Type} `{PyFloat F} {MEState pixel V : Type}.
Variable ME : Z -> Z -> string -> MEState.
Variable EstimateME :
  MEState -> list (list pixel) -> list (list pixel) -> MEState * list (list (list V)).
Variable getRotationMatrix2D : Z * Z -> F -> F -> mat23 F.
Variable warpAffine : list (list pixel) -> mat23 F -> Z * Z -> list (list pixel).
Variable path_join : string -> string -> string.
Variable imread : string -> Exc (list (list pixel)).
Variable mv_astype_f32 : V -> V.

Lemma SynthDatasetME_init_prefix (manifest : list Row) (path : string)
    (h w : Z) (crop : F) (gm : string) (d : Z) (ds : SynthDatasetME F MEState) :
  SynthDatasetME_init ME manifest path h w crop gm d = Ok ds ->
  exists k : nat,
    (k <= length manifest)%nat /\
    train_data ds = labelled 0 (firstn k manifest) /\
    img_names ds = iloc_col0 (labelled 0 (firstn k manifest)) /\
    geometric_model ds = gm.
Proof.
  intros Hinit.
  assert (Hgm : geometric_model ds = gm).
  { unfold SynthDatasetME_init in Hinit.
    destruct (me_dim h crop) as [mh|e]; [|discriminate].
    destruct (me_dim w crop) as [mw|e]; [|discriminate].
    cbn [bind] in Hinit. injection Hinit as <-. reflexivity. }
  destruct (SynthDatasetME_init_train_data _ _ _ _ _ _ _ _ _ Hinit) as [Ht [Hn _]].
  rewrite read_csv_labelled, labelled_length in Ht.
  destruct (Z.eqb_spec d 0) as [Hd0|Hd0]; cbn [negb] in Ht.
  - exists (length manifest). rewrite firstn_all, Hn, Ht. auto.
  - destruct (Z.lt_ge_cases d 0) as [Hneg|Hpos].
    + exists (Z.to_nat (Z.of_nat (length manifest) + d)).
      unfold iloc_rows in Ht. rewrite Z.min_l in Ht by lia.
      rewrite py_slice_drop_last in Ht by lia.
      rewrite labelled_length, firstn_labelled in Ht.
      rewrite Hn, Ht. split; [lia|auto].
    + exists (Z.to_nat (Z.min d (Z.of_nat (length manifest)))).
      unfold iloc_rows in Ht. rewrite py_slice_prefix in Ht by lia.
      rewrite firstn_labelled in Ht.
      rewrite Hn, Ht. split; [lia|auto].
Qed.

(** X14.  Whatever [dataset_size] is (zero, positive or negative), the
    constructed dataset is a prefix of the manifest in manifest order:
    with [len] its length, [len <= n], index [i] with [0 <= i < len]
    looks up the image file name of manifest row [i], and every other
    index, negative ones included, raises [KeyError]. *)
Theorem SynthDatasetME_is_manifest_prefix (manifest : list Row) (path : string)
    (h w : Z) (crop : F) (gm : string) (d : Z) (ds : SynthDatasetME F MEState)
    (dflt : Row) :
  SynthDatasetME_init ME manifest path h w crop gm d = Ok ds ->
  let len := SynthDatasetME_len ds in
  0 <= len <= Z.of_nat (length manifest) /\
  map snd (train_data ds) = firstn (Z.to_nat len) manifest /\
  (forall i, 0 <= i < len ->
     SynthDatasetME_img_name ds i = Ok (img_name (nth (Z.to_nat i) manifest dflt))) /\
  (forall i, ~ (0 <= i < len) ->
     SynthDatasetME_img_name ds i = Raise (KeyError i)).
Proof.
  intros Hinit len.
  destruct (SynthDatasetME_init_prefix _ _ _ _ _ _ _ _ Hinit) as [k [Hk [Ht [Hn _]]]].
  assert (Hlen : len = Z.of_nat k).
  { subst len. unfold SynthDatasetME_len. rewrite Ht, labelled_length, length_firstn.
    lia. }
  unfold SynthDatasetME_img_name. rewrite Hn, Hlen, Nat2Z.id.
  split; [lia|]. split; [rewrite Ht; apply labelled_rows|]. split.
  - intros i Hi.
    replace i with (Z.of_nat (0 + Z.to_nat i)) at 1 by lia.
    rewrite (series_getitem_labelled _ dflt) by (rewrite length_firstn; lia).
    do 2 f_equal. rewrite nth_firstn.
    destruct (Nat.ltb_spec (Z.to_nat i) k); [reflexivity|lia].
  - intros i Hi. apply series_getitem_labelled_miss.
    rewrite length_firstn. lia.
Qed.

(** X15.  [__getitem__] with an index outside [0, len) raises [KeyError]
    for that index at the name lookup: no image is read, no warper is
    built and the estimator is not invoked, whatever these would do. *)
Theorem SynthDatasetME_getitem_out_of_range (manifest : list Row) (path : string)
    (h w : Z) (crop : F) (gm : string) (n : Z) (ds : SynthDatasetME F MEState)
    (idx : Z) (d : Draws F) :
  SynthDatasetME_init ME manifest path h w crop gm n = Ok ds ->
  ~ (0 <= idx < SynthDatasetME_len ds) ->
  SynthDatasetME_getitem EstimateME getRotationMatrix2D warpAffine path_join imread
    mv_astype_f32 ds idx d = Raise (KeyError idx).
Proof.
  intros Hinit Hidx.
  destruct (SynthDatasetME_init_prefix _ _ _ _ _ _ _ _ Hinit) as [k [Hk [Ht [Hn _]]]].
  unfold SynthDatasetME_getitem, SynthDatasetME_img_name. rewrite Hn.
  rewrite series_getitem_labelled_miss; [reflexivity|].
  unfold SynthDatasetME_len in Hidx.
  rewrite Ht, labelled_length in Hidx. lia.
Qed.

(** X16.  Only a dataset whose model tag is ['affine_simple_4'] can yield a
    sample: with any other tag, ['affine_simple'] included, the dataset is
    constructed all the same (the tag is not checked there), but every
    [__getitem__] raises, for every index, image and outcome of the
    draws. *)
Theorem SynthDatasetME_getitem_needs_affine_simple_4
    (ds : SynthDatasetME F MEState) (idx : Z) (d : Draws F) :
  geometric_model ds <> "affine_simple_4"%string ->
  exists e,
    SynthDatasetME_getitem EstimateME getRotationMatrix2D warpAffine path_join imread
      mv_astype_f32 ds idx d = Raise e.
Proof.
  intros Htag. unfold SynthDatasetME_getitem.
  destruct (SynthDatasetME_img_name ds idx) as [name|e]; [|eexists; reflexivity].
  cbn [bind].
  destruct (imread (path_join (dataset_image_path ds) name)) as [image_L|e];
    [|eexists; reflexivity].
  cbn [bind].
  destruct (Warper_init getRotationMatrix2D _ _ (geometric_model ds) (crop_factor ds) d)
    as [warper|e] eqn:Ew; [|eexists; reflexivity].
  apply Warper_init_ok_tag in Ew. contradiction.
Qed.

(** X17.  A successful [__getitem__] leaves the dataset as it was except
    for the state of the two estimator handles: rows, names, size cap,
    image path, model tag, crop fraction and the adapter's four scalars
    are unchanged, so the length and every name lookup are unchanged too;
    the adapter is the one the constructor built, after one more
    disparity computation; and the sample's theta has exactly 4
    components. *)
Theorem SynthDatasetME_getitem_preserves
    (ds ds' : SynthDatasetME F MEState) (idx : Z) (d : Draws F) (smp : Sample F V) :
  SynthDatasetME_getitem EstimateME getRotationMatrix2D warpAffine path_join imread
    mv_astype_f32 ds idx d = Ok (ds', smp) ->
  (train_data ds' = train_data ds /\ img_names ds' = img_names ds /\
   dataset_size ds' = dataset_size ds /\
   dataset_image_path ds' = dataset_image_path ds /\
   geometric_model ds' = geometric_model ds /\ crop_factor ds' = crop_factor ds) /\
  (me_H (me_handler ds') = me_H (me_handler ds) /\
   me_W (me_handler ds') = me_W (me_handler ds) /\
   loss_metric (me_handler ds') = loss_metric (me_handler ds) /\
   runs_to_warm_up (me_handler ds') = runs_to_warm_up (me_handler ds)) /\
  (exists image_L image_R,
     me_handler ds' =
       fst (calculate_disparity EstimateME (me_handler ds) image_L image_R)) /\
  SynthDatasetME_len ds' = SynthDatasetME_len ds /\
  (forall i, SynthDatasetME_img_name ds' i = SynthDatasetME_img_name ds i) /\
  length (theta_GT smp) = 4%nat.
Proof.
  unfold SynthDatasetME_getitem.
  destruct (SynthDatasetME_img_name ds idx) as [name|e]; [|discriminate].
  cbn [bind].
  destruct (imread (path_join (dataset_image_path ds) name)) as [image_L|e];
    [|discriminate].
  cbn [bind].
  destruct (Warper_init getRotationMatrix2D _ _ (geometric_model ds) (crop_factor ds) d)
    as [warper|e] eqn:Ew; [|discriminate].
  cbn [bind].
  destruct (warp warpAffine warper image_L image_L) as [cL cR].
  destruct (calculate_disparity EstimateME (me_handler ds) cL cR) as [mh mvs] eqn:Ec.
  intros [= <- <-].
  pose proof (calculate_disparity_scalars EstimateME (me_handler ds) cL cR) as Hsc.
  cbv zeta in Hsc. rewrite Ec in Hsc. cbn [fst] in Hsc.
  split; [cbn; auto 10|]. split; [exact Hsc|].
  split; [exists cL, cR; rewrite Ec; reflexivity|].
  split; [reflexivity|]. split; [reflexivity|].
  cbn [theta_GT]. rewrite length_map. unfold get_theta.
  pose proof (Warper_init_ok_tag _ _ _ _ _ _ _ Ew) as Etag. rewrite Etag in Ew.
  apply (Warper_init_4_theta_length _ _ _ _ _ _ Ew).
Qed.
End DatasetAccess.

Lemma SynthDatasetME_is_manifest_prefix_witness :
  exists ds,
    SynthDatasetME_init settling_ME ten_rows "images" 16 16 (B64.lit 2 10)
      "affine_simple_4" 0 = Ok ds /\
    let len := SynthDatasetME_len ds in
    0 <= len <= Z.of_nat (length ten_rows) /\
    map snd (train_data ds) = firstn (Z.to_nat len) ten_rows /\
    (forall i, 0 <= i < len ->
       SynthDatasetME_img_name ds i =
         Ok (img_name (nth (Z.to_nat i) ten_rows (Build_Row "none" [])))) /\
    (forall i, ~ (0 <= i < len) ->
       SynthDatasetME_img_name ds i = Raise (KeyError i)).
Proof.
  eexists. split; [vm_compute; reflexivity|].
  apply (SynthDatasetME_is_manifest_prefix settling_ME ten_rows "images" 16 16
           (B64.lit 2 10) "affine_simple_4" 0 _ (Build_Row "none" [])).
  vm_compute. reflexivity.
Defined.

Lemma SynthDatasetME_getitem_out_of_range_witness :
  exists ds,
    SynthDatasetME_init settling_ME ten_rows "images" 16 16 (B64.lit 2 10)
      "affine_simple_4" 5 = Ok ds /\
    SynthDatasetME_getitem settling_estimator_on_images rotation_at_angle_0
      warpAffine_same path_join_slash imread_16 (fun v : Z => v) ds 5 draws_identity =
      Raise (KeyError 5) /\
    SynthDatasetME_getitem settling_estimator_on_images rotation_at_angle_0
      warpAffine_same path_join_slash imread_16 (fun v : Z => v) ds (-1) draws_identity =
      Raise (KeyError (-1)).
Proof.
  eexists. split; [vm_compute; reflexivity|]. split.
  - apply (SynthDatasetME_getitem_out_of_range settling_ME settling_estimator_on_images
             rotation_at_angle_0 warpAffine_same path_join_slash imread_16
             (fun v : Z => v) ten_rows "images" 16 16 (B64.lit 2 10)
             "affine_simple_4" 5 _ 5 draws_identity).
    + vm_compute. reflexivity.
    + vm_compute. intros [_ Hlt]. discriminate Hlt.
  - apply (SynthDatasetME_getitem_out_of_range settling_ME settling_estimator_on_images
             rotation_at_angle_0 warpAffine_same path_join_slash imread_16
             (fun v : Z => v) ten_rows "images" 16 16 (B64.lit 2 10)
             "affine_simple_4" 5 _ (-1) draws_identity).
    + vm_compute. reflexivity.
    + vm_compute. intros [Hle _]. apply Hle. reflexivity.
Defined.

Lemma SynthDatasetME_getitem_needs_affine_simple_4_witness :
  exists ds,
    SynthDatasetME_init settling_ME ten_rows "images" 16 16 (B64.lit 2 10)
      "affine_simple" 0 = Ok ds /\
    exists e,
      SynthDatasetME_getitem settling_estimator_on_images rotation_at_angle_0
        warpAffine_same path_join_slash imread_16 (fun v : Z => v) ds 3 draws_identity =
        Raise e.
Proof.
  eexists. split; [vm_compute; reflexivity|].
  apply (SynthDatasetME_getitem_needs_affine_simple_4 settling_estimator_on_images
           rotation_at_angle_0 warpAffine_same path_join_slash imread_16
           (fun v : Z => v)).
  cbn. discriminate.
Defined.

Lemma SynthDatasetME_getitem_preserves_witness :
  exists ds ds' smp,
    SynthDatasetME_init settling_ME ten_rows "images" 16 16 (B64.lit 2 10)
      "affine_simple_4" 0 = Ok ds /\
    SynthDatasetME_getitem settling_estimator_on_images rotation_at_angle_0
      warpAffine_same path_join_slash imread_16 (fun v : Z => v) ds 3 draws_identity =
      Ok (ds', smp) /\
    (train_data ds' = train_data ds /\ img_names ds' = img_names ds /\
     dataset_size ds' = dataset_size ds /\
     dataset_image_path ds' = dataset_image_path ds /\
     geometric_model ds' = geometric_model ds /\ crop_factor ds' = crop_factor ds) /\
    (me_H (me_handler ds') = me_H (me_handler ds) /\
     me_W (me_handler ds') = me_W (me_handler ds) /\
     loss_metric (me_handler ds') = loss_metric (me_handler ds) /\
     runs_to_warm_up (me_handler ds') = runs_to_warm_up (me_handler ds)) /\
    (exists image_L image_R,
       me_handler ds' =
         fst (calculate_disparity settling_estimator_on_images (me_handler ds)
                image_L image_R)) /\
    SynthDatasetME_len ds' = SynthDatasetME_len ds /\
    (forall i, SynthDatasetME_img_name ds' i = SynthDatasetME_img_name ds i) /\
    length (theta_GT smp) = 4%nat.
Proof.
  eexists. eexists. eexists.
  split; [vm_compute; reflexivity|].
  split; [vm_compute; reflexivity|].
  apply (SynthDatasetME_getitem_preserves settling_estimator_on_images
           rotation_at_angle_0 warpAffine_same path_join_slash imread_16
           (fun v : Z => v) _ _ 3 draws_identity).
  vm_compute. reflexivity.
Defined.

(** ** The training script and the warper on the model tag *)

(** X18.  The training script and the warper on the model tag.  A tag the
    script rejects is rejected by the warper with the same
    [NotImplementedError].  A tag the script accepts has an initial theta
    of as many components as the output dimension, the first ones of
    [0, 1, 0, 0].  For ['affine_simple_4'] the output dimension 4 is the
    number of components of the theta of every warper constructed with
    that tag, whenever the construction succeeds.  For ['affine_simple']
    the script sets the output dimension 3, but the warper never yields a
    theta: its construction raises. *)
Theorem train_and_warper_on_tag
    {F : Type} `{PyFloat F} (getRotationMatrix2D : Z * Z -> F -> F -> mat23 F)
    (H W : Z) (geometric_model : string) (crop : F) (d : Draws F) :
  match cnn_output_dim geometric_model with
  | Ok n =>
      (exists th,
         init_theta geometric_model = Some th /\
         Z.of_nat (length th) = n /\
         th = firstn (Z.to_nat n) [f_lit 0 1; f_lit 1 1; f_lit 0 1; f_lit 0 1]) /\
      ((geometric_model = "affine_simple_4"%string /\ n = 4 /\
        forall w,
          Warper_init getRotationMatrix2D H W geometric_model crop d = Ok w ->
          Z.of_nat (length (theta w)) = 4) \/
       (geometric_model = "affine_simple"%string /\ n = 3 /\
        exists e,
          Warper_init getRotationMatrix2D H W geometric_model crop d = Raise e))
  | Raise e =>
      Warper_init getRotationMatrix2D H W geometric_model crop d = Raise e
  end.
Proof.
  unfold cnn_output_dim, init_theta.
  destruct (String.eqb_spec geometric_model "affine_simple") as [E3|N3].
  - subst geometric_model.
    split; [eexists; split; [reflexivity|split; reflexivity]|].
    right. split; [reflexivity|]. split; [reflexivity|].
    pose proof (Warper_init_affine_simple getRotationMatrix2D H W crop d) as Hs.
    destruct (Warper_init getRotationMatrix2D H W "affine_simple_4" crop d);
      eexists; exact Hs.
  - destruct (String.eqb_spec geometric_model "affine_simple_4") as [E4|N4].
    + subst geometric_model.
      split; [eexists; split; [reflexivity|split; reflexivity]|].
      left. split; [reflexivity|]. split; [reflexivity|].
      intros w Ew.
      rewrite (proj1 (Warper_init_4_theta_length _ _ _ _ _ _ Ew)). reflexivity.
    + apply Warper_init_unsupported_model_any; assumption.
Qed.

Lemma train_and_warper_on_tag_witness :
  exists w,
    Warper_init rotation_at_angle_0 256 256 "affine_simple_4" (B64.lit 2 10)
      draws_mixed = Ok w /\
    cnn_output_dim "affine_simple_4" = Ok 4 /\
    Z.of_nat (length (theta w)) = 4.
Proof.
  eexists. split; [vm_compute; reflexivity|]. split; [reflexivity|].
  pose proof (train_and_warper_on_tag rotation_at_angle_0 256 256 "affine_simple_4"
                (B64.lit 2 10) draws_mixed) as T.
  cbv beta iota delta [cnn_output_dim String.eqb Ascii.eqb Bool.eqb] in T.
  destruct T as [_ [[_ [_ T]]|[E _]]]; [|discriminate E].
  apply T. vm_compute. reflexivity.
Defined.
